(** * Signal router of the consciousness observation node

    A shallow embedding of [SignalHandlers] (the signal router, the attention
    event logger glue and the operation deriver) and the properties of its
    routing pipeline.

    JavaScript numbers are IEEE 754 binary64 values, modelled by Rocq's
    primitive floats; payloads are finite maps from field names to
    JavaScript values; the store, the notifier sink, the responder and the
    console are observed through an explicit world state that every handler
    threads. *)

From Stdlib Require Import ZArith Floats String List Bool Lia.
From Stdlib Require Import DecimalString HexadecimalString.
From stdpp Require Import gmap strings.
Import ListNotations.

Set Warnings "-register-all,-inexact-float".

Open Scope string_scope.

(** ** JavaScript values *)

Inductive JsValue : Type :=
| JUndefined
| JNull
| JBool (b : bool)
| JNum (x : float)
| JStr (s : string)
| JArr (l : list JsValue)
| JObj (m : gmap string JsValue).

(** [o.k]: reading a property that the object lacks gives [undefined]. *)
Definition field (o : gmap string JsValue) (k : string) : JsValue :=
  default JUndefined (o !! k).

(** Object literal [{ k1: v1, ..., kn: vn }]; a later key overrides an
    earlier one. *)
Definition obj (kvs : list (string * JsValue)) : gmap string JsValue :=
  fold_left (fun m kv => <[kv.1 := kv.2]> m) kvs ∅.

(** ToBoolean. *)
Definition truthy (v : JsValue) : bool :=
  match v with
  | JUndefined | JNull => false
  | JBool b => b
  | JNum x => negb (PrimFloat.is_zero x || PrimFloat.is_nan x)
  | JStr s => negb (String.eqb s "")
  | JArr _ | JObj _ => true
  end.

(** [a || b] when evaluating [b] has no effect. *)
Definition js_or (a b : JsValue) : JsValue := if truthy a then a else b.

(** [v === 'literal']. *)
Definition strict_eq_str (v : JsValue) (s : string) : bool :=
  match v with
  | JStr t => String.eqb t s
  | _ => false
  end.

(** An integer as a JavaScript number (exact below 2^53). *)
Definition num_of_Z (z : Z) : float :=
  if (0 <=? z)%Z then PrimFloat.of_uint63 (Uint63.of_Z z)
  else PrimFloat.opp (PrimFloat.of_uint63 (Uint63.of_Z (- z))).

(** Number.prototype.toString on an integer, radix 10 and radix 16. *)
Definition dec_of_Z (z : Z) : string :=
  DecimalString.NilZero.string_of_int (Z.to_int z).

Definition hex_of_Z (z : Z) : string :=
  HexadecimalString.NilZero.string_of_int (Z.to_hex_int z).

(** Math.min on two numbers: NaN if either is NaN, and -0 below +0. *)
Definition Math_min (a b : float) : float :=
  if PrimFloat.is_nan a || PrimFloat.is_nan b then PrimFloat.nan
  else if PrimFloat.ltb a b then a
  else if PrimFloat.ltb b a then b
  else if PrimFloat.get_sign a then a else b.

(** The conversions of the JavaScript runtime that read or print text:
    ToNumber on strings, arrays and objects, and ToString on numbers,
    arrays and objects. They belong to the host, and the router is
    modelled over any such host. *)
Record Runtime : Type := {
  ToNumberText : JsValue -> float;
  ToStringOther : JsValue -> string
}.

Section Conversions.
Variable rt : Runtime.

Definition ToNumber (v : JsValue) : float :=
  match v with
  | JUndefined => PrimFloat.nan
  | JNull => 0%float
  | JBool b => if b then 1%float else 0%float
  | JNum x => x
  | JStr _ | JArr _ | JObj _ => ToNumberText rt v
  end.

Definition ToString (v : JsValue) : string :=
  match v with
  | JUndefined => "undefined"
  | JNull => "null"
  | JBool b => if b then "true" else "false"
  | JStr s => s
  | JNum _ | JArr _ | JObj _ => ToStringOther rt v
  end.

(** [a * b], [a / b] and [a > b] with a number on the right. *)
Definition js_mul (a : JsValue) (b : float) : float :=
  PrimFloat.mul (ToNumber a) b.

Definition js_div (a : JsValue) (b : float) : float :=
  PrimFloat.div (ToNumber a) b.

Definition js_gt (a : JsValue) (b : float) : bool :=
  PrimFloat.ltb b (ToNumber a).
End Conversions.

(** ** Data model (types.js) *)

Record Signal : Type := {
  signalType : Z;
  version : Z;
  sig_timestamp : JsValue;
  payload : gmap string JsValue
}.

Record RemoteInfo : Type := {
  address : string;
  port : Z
}.

Inductive EventType : Type :=
| ev_signal | ev_file | ev_query | ev_operation | ev_workflow.

Inductive OperationOutcome : Type :=
| success | failure | partial.

Record AttentionEvent : Type := {
  ev_timestamp : float;
  ev_server_name : JsValue;
  event_type : EventType;
  target : JsValue;
  context : JsValue
}.

Record Operation : Type := {
  op_timestamp : float;
  op_server_name : JsValue;
  operation_type : JsValue;
  operation_id : JsValue;
  input_summary : JsValue;
  outcome : OperationOutcome;
  quality_score : JsValue;
  lessons : JsValue;
  duration_ms : JsValue
}.

Definition EventType_eqb (a b : EventType) : bool :=
  match a, b with
  | ev_signal, ev_signal | ev_file, ev_file | ev_query, ev_query
  | ev_operation, ev_operation | ev_workflow, ev_workflow => true
  | _, _ => false
  end.

(** ** The protocol table (protocol.js)

    The numeric values of the signal types and the table of their names
    are not part of the router; it is modelled over any assignment. *)

Record SignalTypeTable : Type := {
  HEARTBEAT : Z;
  DOCK_REQUEST : Z;
  DOCK_APPROVED : Z;
  UNDOCK : Z;
  SHUTDOWN : Z;
  FILE_DISCOVERED : Z;
  FILE_INDEXED : Z;
  FILE_MODIFIED : Z;
  FILE_DELETED : Z;
  SEARCH_STARTED : Z;
  SEARCH_COMPLETED : Z;
  SEARCH_RESULT : Z;
  BUILD_STARTED : Z;
  BUILD_COMPLETED : Z;
  BUILD_FAILED : Z;
  VERIFICATION_STARTED : Z;
  VERIFICATION_RESULT : Z;
  CLAIM_EXTRACTED : Z;
  VALIDATION_APPROVED : Z;
  VALIDATION_REJECTED : Z;
  HANDOFF_REQUEST : Z;
  HANDOFF_APPROVED : Z;
  HANDOFF_COMPLETED : Z;
  MODE_SWITCH : Z;
  ASTROSENTRY_EVENT : Z;
  ERROR : Z;
  getSignalName : Z -> string
}.

(** ** The store (database/schema.js)

    [insertAttentionEvent] and [insertOperation] either throw or leave a
    new database state. *)

Inductive StoreError : Type :=
| DuplicateKeyError
| StorageError.

Record Store : Type := {
  DB : Type;
  insertAttentionEvent : AttentionEvent -> DB -> StoreError + DB;
  insertOperation : Operation -> DB -> StoreError + DB
}.

(** ** Observable effects *)

Inductive Effect : Type :=
| ConsoleError (line : string) (err : option StoreError)
| CallInsertAttentionEvent (e : AttentionEvent)
| CallInsertOperation (o : Operation)
| Emit (event : string) (data : gmap string JsValue)
| SendResponse (host : string) (port : Z) (response : Signal).

(** The world a routing call runs in: the database, the effects so far in
    the order they happened, and the number of clock readings so far. *)
Record World (store : Store) : Type := {
  db : DB store;
  trace : list Effect;
  ticks : nat
}.
Arguments db {store} _.
Arguments trace {store} _.
Arguments ticks {store} _.

(** A computation ends normally or by a throw; the world it leaves is kept
    either way. *)
Inductive Completion (A : Type) : Type :=
| Normal (a : A)
| Throw (e : StoreError).
Arguments Normal {A} _.
Arguments Throw {A} _.

Definition M (store : Store) (A : Type) : Type :=
  World store -> Completion A * World store.

(** ** The router (SignalHandlers) *)

Section Router.
Variable store : Store.
Variable rt : Runtime.
Variable SignalTypes : SignalTypeTable.
(** [clock n] is what the n-th reading of [Date.now()] returns, in
    milliseconds. *)
Variable clock : nat -> Z.
Variable serverId : string.

#[local] Instance M_ret : MRet (M store) :=
  fun A a w => (Normal a, w).

#[local] Instance M_bind : MBind (M store) :=
  fun A B k m w =>
    match m w with
    | (Normal a, w') => k a w'
    | (Throw e, w') => (Throw e, w')
    end.

(** [try { body } catch (error) { handler }]. *)
Definition try_catch {A} (body : M store A) (handler : StoreError -> M store A)
  : M store A :=
  fun w =>
    match body w with
    | (Normal a, w') => (Normal a, w')
    | (Throw e, w') => handler e w'
    end.

(** The console, the notifier sink ([context.emit]) and the responder
    ([context.sendResponse]) are fire-and-forget: a call is recorded and
    returns normally. *)
Definition perform (e : Effect) : M store unit :=
  fun w => (Normal tt, {| db := db w; trace := (trace w ++ [e])%list; ticks := ticks w |}).

Definition console_error (line : string) (err : option StoreError) : M store unit :=
  perform (ConsoleError line err).

Definition emit (event : string) (data : gmap string JsValue) : M store unit :=
  perform (Emit event data).

Definition sendResponse (host : string) (p : Z) (response : Signal) : M store unit :=
  perform (SendResponse host p response).

Definition Date_now : M store Z :=
  fun w => (Normal (clock (ticks w)),
            {| db := db w; trace := trace w; ticks := S (ticks w) |}).

(** [getDatabase().insertAttentionEvent(event)]: [getDatabase()] hands out
    the one database, whose state the world holds; the call is observed, then
    the store accepts the row or throws. *)
Definition db_insertAttentionEvent (event : AttentionEvent) : M store unit :=
  fun w =>
    let tr := (trace w ++ [CallInsertAttentionEvent event])%list in
    match insertAttentionEvent store event (db w) with
    | inl err => (Throw err, {| db := db w; trace := tr; ticks := ticks w |})
    | inr d => (Normal tt, {| db := d; trace := tr; ticks := ticks w |})
    end.

Definition db_insertOperation (op : Operation) : M store unit :=
  fun w =>
    let tr := (trace w ++ [CallInsertOperation op])%list in
    match insertOperation store op (db w) with
    | inl err => (Throw err, {| db := db w; trace := tr; ticks := ticks w |})
    | inr d => (Normal tt, {| db := d; trace := tr; ticks := ticks w |})
    end.

(** [a || b] when [b] reads the clock. *)
Definition js_or_else (a : JsValue) (b : M store JsValue) : M store JsValue :=
  if truthy a then mret a else b.

(** [signal.timestamp * 1000 || Date.now()]. *)
Definition timestamp_ms (signal : Signal) : M store float :=
  let t := js_mul rt (sig_timestamp signal) 1000 in
  if truthy (JNum t) then mret t
  else now ← Date_now; mret (num_of_Z now).

(** [const { sender, ...data } = signal.payload]. *)
Definition sender_of (signal : Signal) : JsValue := field (payload signal) "sender".
Definition data_of (signal : Signal) : gmap string JsValue :=
  delete "sender" (payload signal).

Definition signal_name (signal : Signal) : string :=
  getSignalName SignalTypes (signalType signal).

Definition logAttentionEvent (signal : Signal) (rinfo : RemoteInfo) : M store unit :=
  try_catch
    (let sender := sender_of signal in
     let data := data_of signal in
     ts ← timestamp_ms signal;
     db_insertAttentionEvent
       {| ev_timestamp := ts;
          ev_server_name := sender;
          event_type := ev_signal;
          target := JStr (signal_name signal);
          context := JObj (obj [("signal_type", JNum (num_of_Z (signalType signal)));
                                ("data", JObj data);
                                ("source_address", JStr (address rinfo));
                                ("source_port", JNum (num_of_Z (port rinfo)))]) |})
    (fun error => console_error "[Handlers] Failed to log attention event:" (Some error)).

Definition handleHeartbeat (signal : Signal) (rinfo : RemoteInfo) : M store unit :=
  let sender := sender_of signal in
  let data := data_of signal in
  emit "server_heartbeat"
       (obj [("server", sender); ("timestamp", sig_timestamp signal); ("data", JObj data)]).

(** [Math.floor(Date.now() / 1000)] is the integer quotient of the clock
    reading. *)
Definition handleDockRequest (signal : Signal) (rinfo : RemoteInfo) : M store unit :=
  now ← Date_now;
  let response :=
    {| signalType := DOCK_APPROVED SignalTypes;
       version := 0x0100;
       sig_timestamp := JNum (num_of_Z (now / 1000));
       payload := obj [("sender", JStr serverId);
                       ("approved", JBool true);
                       ("message", JStr "Welcome to the consciousness mesh");
                       ("capabilities", JArr [JStr "awareness"; JStr "pattern-detection";
                                              JStr "reflection"])] |} in
  sendResponse (address rinfo) (port rinfo) response.

Definition handleShutdown (signal : Signal) (rinfo : RemoteInfo) : M store unit :=
  console_error ("[Handlers] Server " ++ ToString rt (sender_of signal) ++ " is shutting down")
                None;;
  emit "server_shutdown"
       (obj [("server", sender_of signal); ("timestamp", sig_timestamp signal)]).

Definition handleFileEvent (signal : Signal) (rinfo : RemoteInfo) : M store unit :=
  let sender := sender_of signal in
  let data := data_of signal in
  ts ← timestamp_ms signal;
  db_insertAttentionEvent
    {| ev_timestamp := ts;
       ev_server_name := sender;
       event_type := ev_file;
       target := js_or (js_or (field data "path") (field data "file")) (JStr "unknown");
       context := JObj data |};;
  emit "file_event"
       (obj [("type", JStr (signal_name signal)); ("server", sender); ("data", JObj data)]).

Definition handleSearchEvent (signal : Signal) (rinfo : RemoteInfo) : M store unit :=
  let sender := sender_of signal in
  let data := data_of signal in
  (if (signalType signal =? SEARCH_STARTED SignalTypes)%Z then
     ts ← timestamp_ms signal;
     db_insertAttentionEvent
       {| ev_timestamp := ts;
          ev_server_name := sender;
          event_type := ev_query;
          target := js_or (js_or (field data "query") (field data "search_term"))
                          (JStr "unknown");
          context := JObj data |}
   else mret tt);;
  (if (signalType signal =? SEARCH_COMPLETED SignalTypes)%Z then
     ts ← timestamp_ms signal;
     oid ← js_or_else (field data "search_id")
                      (now ← Date_now; mret (JStr ("search-" ++ dec_of_Z now)));
     let op :=
       {| op_timestamp := ts;
          op_server_name := sender;
          operation_type := JStr "search";
          operation_id := oid;
          input_summary := js_or (field data "query") (JStr "unknown");
          outcome := if js_gt rt (field data "results_count") 0 then success else partial;
          quality_score :=
            JNum (Math_min 1 (js_div rt (js_or (field data "results_count") (JNum 0)) 10));
          lessons := JObj (obj [("results_count", field data "results_count")]);
          duration_ms := field data "duration_ms" |} in
     try_catch (db_insertOperation op) (fun _ => mret tt)
   else mret tt);;
  emit "search_event"
       (obj [("type", JStr (signal_name signal)); ("server", sender); ("data", JObj data)]).

Definition handleBuildEvent (signal : Signal) (rinfo : RemoteInfo) : M store unit :=
  let sender := sender_of signal in
  let data := data_of signal in
  buildId ← js_or_else (js_or (field data "build_id") (field data "server_name"))
                       (now ← Date_now; mret (JStr ("build-" ++ dec_of_Z now)));
  (if (signalType signal =? BUILD_STARTED SignalTypes)%Z then
     ts ← timestamp_ms signal;
     db_insertAttentionEvent
       {| ev_timestamp := ts;
          ev_server_name := sender;
          event_type := ev_operation;
          target := buildId;
          context := JObj (data ∪ obj [("operation", JStr "build_started")]) |}
   else mret tt);;
  (if (signalType signal =? BUILD_COMPLETED SignalTypes)%Z
      || (signalType signal =? BUILD_FAILED SignalTypes)%Z then
     let outcome_ :=
       if (signalType signal =? BUILD_COMPLETED SignalTypes)%Z then success else failure in
     ts ← timestamp_ms signal;
     let op :=
       {| op_timestamp := ts;
          op_server_name := sender;
          operation_type := JStr "build";
          operation_id := buildId;
          input_summary := js_or (js_or (field data "server_name") (field data "description"))
                                 (JStr "unknown");
          outcome := outcome_;
          quality_score :=
            JNum (match outcome_ with success => 0.9%float | _ => 0.2%float end);
          lessons := JObj data;
          duration_ms := field data "duration_ms" |} in
     try_catch (db_insertOperation op) (fun _ => mret tt);;
     match outcome_ with
     | failure =>
         emit "lesson_learned"
              (obj [("type", JStr "build_failure"); ("server", sender); ("data", JObj data)])
     | _ => mret tt
     end
   else mret tt);;
  emit "build_event"
       (obj [("type", JStr (signal_name signal)); ("server", sender); ("data", JObj data)]).

Definition handleVerificationEvent (signal : Signal) (rinfo : RemoteInfo) : M store unit :=
  let sender := sender_of signal in
  let data := data_of signal in
  (if (signalType signal =? VERIFICATION_RESULT SignalTypes)%Z then
     verifyId ← js_or_else (field data "verification_id")
                           (now ← Date_now; mret (JStr ("verify-" ++ dec_of_Z now)));
     let verdict := field data "verdict" in
     let outcome_ :=
       if strict_eq_str verdict "SUPPORTED" then success
       else if strict_eq_str verdict "CONTRADICTED" then failure
       else partial in
     ts ← timestamp_ms signal;
     let op :=
       {| op_timestamp := ts;
          op_server_name := sender;
          operation_type := JStr "verify";
          operation_id := verifyId;
          input_summary := js_or (field data "claim") (JStr "unknown");
          outcome := outcome_;
          quality_score := js_or (field data "confidence") (JNum 0.5);
          lessons := JObj (obj [("verdict", verdict);
                                ("constraints", field data "constraints");
                                ("sources", field data "sources")]);
          duration_ms := field data "duration_ms" |} in
     try_catch (db_insertOperation op) (fun _ => mret tt)
   else mret tt);;
  emit "verification_event"
       (obj [("type", JStr (signal_name signal)); ("server", sender); ("data", JObj data)]).

Definition handleValidationEvent (signal : Signal) (rinfo : RemoteInfo) : M store unit :=
  let sender := sender_of signal in
  let data := data_of signal in
  let outcome_ :=
    if (signalType signal =? VALIDATION_APPROVED SignalTypes)%Z then success else failure in
  emit "validation_event"
       (obj [("type", JStr (signal_name signal));
             ("outcome", JStr (match outcome_ with success => "success" | _ => "failure" end));
             ("server", sender);
             ("data", JObj data)]);;
  match outcome_ with
  | failure =>
      emit "pattern_candidate"
           (obj [("type", JStr "validation_failure"); ("server", sender);
                 ("reason", field data "reason"); ("data", JObj data)])
  | _ => mret tt
  end.

Definition handleCoordinationEvent (signal : Signal) (rinfo : RemoteInfo) : M store unit :=
  let sender := sender_of signal in
  let data := data_of signal in
  ts ← timestamp_ms signal;
  db_insertAttentionEvent
    {| ev_timestamp := ts;
       ev_server_name := sender;
       event_type := ev_workflow;
       target := JStr (signal_name signal);
       context := JObj data |};;
  emit "coordination_event"
       (obj [("type", JStr (signal_name signal)); ("server", sender); ("data", JObj data)]).

Definition handleAstrosentryEvent (signal : Signal) (rinfo : RemoteInfo) : M store unit :=
  let sender := field (payload signal) "sender" in
  let serverId_ := field (payload signal) "serverId" in
  let eventType := field (payload signal) "eventType" in
  let outcome_ := field (payload signal) "outcome" in
  let operation := field (payload signal) "operation" in
  let metadata := field (payload signal) "metadata" in
  let source := field (payload signal) "source" in
  ts ← timestamp_ms signal;
  db_insertAttentionEvent
    {| ev_timestamp := ts;
       ev_server_name := js_or serverId_ sender;
       event_type := ev_operation;
       target := JStr (ToString rt eventType ++ ":" ++ ToString rt operation);
       context := JObj (obj [("astrosentry_event_type", eventType);
                             ("outcome", outcome_);
                             ("source", source);
                             ("metadata", metadata)]) |};;
  (if truthy outcome_ then
     ts' ← timestamp_ms signal;
     now ← Date_now;
     let op :=
       {| op_timestamp := ts';
          op_server_name := js_or serverId_ sender;
          operation_type := eventType;
          operation_id := JStr (ToString rt serverId_ ++ "-" ++ ToString rt eventType
                                ++ "-" ++ dec_of_Z now);
          input_summary := operation;
          outcome := if strict_eq_str outcome_ "success" then success
                     else if strict_eq_str outcome_ "failure" then failure
                     else partial;
          quality_score := JNum (if strict_eq_str outcome_ "success" then 1.0%float
                                 else if strict_eq_str outcome_ "failure" then 0.0%float
                                 else 0.5%float);
          lessons := metadata;
          duration_ms := JUndefined |} in
     try_catch (db_insertOperation op) (fun _ => mret tt)
   else mret tt);;
  console_error ("[Handlers] ASTROSENTRY_EVENT: " ++ ToString rt serverId_ ++ "/"
                 ++ ToString rt eventType ++ " → " ++ ToString rt outcome_
                 ++ " (source: " ++ ToString rt source ++ ")") None;;
  emit "astrosentry_event"
       (obj [("serverId", serverId_); ("eventType", eventType); ("outcome", outcome_);
             ("operation", operation); ("metadata", metadata); ("source", source)]);;
  if strict_eq_str outcome_ "failure" then
    emit "pattern_candidate"
         (obj [("type", JStr "astrosentry_failure"); ("server", serverId_);
               ("eventType", eventType); ("operation", operation);
               ("metadata", metadata)])
  else mret tt.

(** [console.error(line, data)] prints the payload after the line; only the
    line is recorded. *)
Definition handleError (signal : Signal) (rinfo : RemoteInfo) : M store unit :=
  let sender := sender_of signal in
  let data := data_of signal in
  console_error ("[Handlers] Error from " ++ ToString rt sender ++ ":") None;;
  emit "error_received"
       (obj [("server", sender); ("error", JObj data); ("timestamp", sig_timestamp signal)]);;
  emit "pattern_candidate"
       (obj [("type", JStr "error"); ("server", sender); ("data", JObj data)]).

Definition handleUnknownSignal (signal : Signal) (rinfo : RemoteInfo) : M store unit :=
  let sender := sender_of signal in
  let data := data_of signal in
  console_error ("[Handlers] Unknown signal type 0x" ++ hex_of_Z (signalType signal)
                 ++ " from " ++ ToString rt sender) None;;
  emit "unknown_signal"
       (obj [("type", JNum (num_of_Z (signalType signal))); ("server", sender);
             ("data", JObj data)]).

(** The [switch] of [route]: the first case label equal to the signal type
    selects the handler. *)
Definition dispatch (signal : Signal) (rinfo : RemoteInfo) : M store unit :=
  let st := signalType signal in
  let T := SignalTypes in
  if (st =? HEARTBEAT T)%Z then handleHeartbeat signal rinfo
  else if (st =? DOCK_REQUEST T)%Z then handleDockRequest signal rinfo
  else if (st =? UNDOCK T)%Z || (st =? SHUTDOWN T)%Z then handleShutdown signal rinfo
  else if (st =? FILE_DISCOVERED T)%Z || (st =? FILE_INDEXED T)%Z
          || (st =? FILE_MODIFIED T)%Z || (st =? FILE_DELETED T)%Z
  then handleFileEvent signal rinfo
  else if (st =? SEARCH_STARTED T)%Z || (st =? SEARCH_COMPLETED T)%Z
          || (st =? SEARCH_RESULT T)%Z
  then handleSearchEvent signal rinfo
  else if (st =? BUILD_STARTED T)%Z || (st =? BUILD_COMPLETED T)%Z
          || (st =? BUILD_FAILED T)%Z
  then handleBuildEvent signal rinfo
  else if (st =? VERIFICATION_STARTED T)%Z || (st =? VERIFICATION_RESULT T)%Z
          || (st =? CLAIM_EXTRACTED T)%Z
  then handleVerificationEvent signal rinfo
  else if (st =? VALIDATION_APPROVED T)%Z || (st =? VALIDATION_REJECTED T)%Z
  then handleValidationEvent signal rinfo
  else if (st =? HANDOFF_REQUEST T)%Z || (st =? HANDOFF_APPROVED T)%Z
          || (st =? HANDOFF_COMPLETED T)%Z || (st =? MODE_SWITCH T)%Z
  then handleCoordinationEvent signal rinfo
  else if (st =? ASTROSENTRY_EVENT T)%Z then handleAstrosentryEvent signal rinfo
  else if (st =? ERROR T)%Z then handleError signal rinfo
  else handleUnknownSignal signal rinfo.

Definition route (signal : Signal) (rinfo : RemoteInfo) : M store unit :=
  console_error ("[Handlers] Received " ++ signal_name signal ++ " from "
                 ++ ToString rt (sender_of signal) ++ " (" ++ address rinfo ++ ":"
                 ++ dec_of_Z (port rinfo) ++ ")") None;;
  logAttentionEvent signal rinfo;;
  dispatch signal rinfo.
End Router.

Arguments obj : simpl never.
Arguments field : simpl never.
Arguments js_or : simpl never.
Arguments truthy : simpl never.
Arguments num_of_Z : simpl never.
Arguments dec_of_Z : simpl never.
Arguments hex_of_Z : simpl never.
Arguments Math_min : simpl never.
Arguments ToString : simpl never.
Arguments js_mul : simpl never.
Arguments js_div : simpl never.
Arguments js_gt : simpl never.
Arguments strict_eq_str : simpl never.
Arguments sender_of : simpl never.
Arguments data_of : simpl never.
Arguments signal_name : simpl never.

(** ** Observations on a routing call *)

(** The case labels of the [switch] in [route], in source order. *)
Definition switch_cases (T : SignalTypeTable) : list Z :=
  [HEARTBEAT T; DOCK_REQUEST T; UNDOCK T; SHUTDOWN T;
   FILE_DISCOVERED T; FILE_INDEXED T; FILE_MODIFIED T; FILE_DELETED T;
   SEARCH_STARTED T; SEARCH_COMPLETED T; SEARCH_RESULT T;
   BUILD_STARTED T; BUILD_COMPLETED T; BUILD_FAILED T;
   VERIFICATION_STARTED T; VERIFICATION_RESULT T; CLAIM_EXTRACTED T;
   VALIDATION_APPROVED T; VALIDATION_REJECTED T;
   HANDOFF_REQUEST T; HANDOFF_APPROVED T; HANDOFF_COMPLETED T; MODE_SWITCH T;
   ASTROSENTRY_EVENT T; ERROR T].

(** The effects a computation adds to the trace of the world it starts in. *)
Definition effects_of {store A} (m : M store A) (w : World store) : list Effect :=
  drop (length (trace w)) (trace (m w).2).

Definition completion_of {store A} (m : M store A) (w : World store) : Completion A :=
  (m w).1.

Definition raises {A} (c : Completion A) : bool :=
  match c with Throw _ => true | Normal _ => false end.

Definition attention_calls (es : list Effect) : list AttentionEvent :=
  flat_map (fun e => match e with CallInsertAttentionEvent a => [a] | _ => [] end) es.

Definition operation_calls (es : list Effect) : list Operation :=
  flat_map (fun e => match e with CallInsertOperation o => [o] | _ => [] end) es.

Definition emitted (event : string) (es : list Effect) : list (gmap string JsValue) :=
  flat_map (fun e => match e with
                     | Emit n d => if String.eqb n event then [d] else []
                     | _ => []
                     end) es.

Definition responses (es : list Effect) : list (string * Z * Signal) :=
  flat_map (fun e => match e with SendResponse h p s => [(h, p, s)] | _ => [] end) es.

Definition is_signal_event (a : AttentionEvent) : bool :=
  EventType_eqb (event_type a) ev_signal.

(** ** Stores and hosts to run the router on *)

(** Equality of two operation ids as a key comparison: strings and numbers
    by value; arrays and objects are never keys. *)
Definition same_id (a b : JsValue) : bool :=
  match a, b with
  | JUndefined, JUndefined | JNull, JNull => true
  | JBool x, JBool y => Bool.eqb x y
  | JNum x, JNum y => PrimFloat.eqb x y
  | JStr s, JStr t => String.eqb s t
  | _, _ => false
  end.

Definition has_id (id : JsValue) (rows : list Operation) : bool :=
  existsb (fun r => same_id (operation_id r) id) rows.

Definition rows_with_id (id : JsValue) (rows : list Operation) : list Operation :=
  List.filter (fun r => same_id (operation_id r) id) rows.

(** A store enforces uniqueness of [operation_id] on the rows it holds:
    inserting an operation whose id is already there throws, inserting a
    fresh one appends the row, and attention events leave the rows alone. *)
Record enforces_unique_ids (store : Store) (rows : DB store -> list Operation) : Prop := {
  duplicate_rejected :
    forall op d, has_id (operation_id op) (rows d) = true ->
                 exists e, insertOperation store op d = inl e;
  fresh_accepted :
    forall op d, has_id (operation_id op) (rows d) = false ->
                 exists d', insertOperation store op d = inr d' /\ rows d' = (rows d ++ [op])%list;
  attention_keeps_rows :
    forall e d d', insertAttentionEvent store e d = inr d' -> rows d' = rows d
}.

Record IdealDB : Type := {
  attention_rows : list AttentionEvent;
  operation_rows : list Operation
}.

(** Modelled from the spec: the backing store behind [getDatabase()] is not
    part of the router; this is the idealized uniqueness-checked store of
    the specification, which accepts every attention event and rejects an
    operation whose [operation_id] it already holds with a duplicate-key
    error. *)
Definition ideal_store : Store :=
  {| DB := IdealDB;
     insertAttentionEvent e d :=
       inr {| attention_rows := (attention_rows d ++ [e])%list;
              operation_rows := operation_rows d |};
     insertOperation o d :=
       if has_id (operation_id o) (operation_rows d) then inl DuplicateKeyError
       else inr {| attention_rows := attention_rows d;
                   operation_rows := (operation_rows d ++ [o])%list |} |}.

(** A store whose audit log rejects every write and whose operation log
    accepts every write. *)
Definition rejecting_store : Store :=
  {| DB := IdealDB;
     insertAttentionEvent e d := inl StorageError;
     insertOperation o d :=
       inr {| attention_rows := attention_rows d;
              operation_rows := (operation_rows d ++ [o])%list |} |}.

Definition empty_db : IdealDB := {| attention_rows := []; operation_rows := [] |}.

Definition initial_world (store : Store) (d : DB store) : World store :=
  {| db := d; trace := []; ticks := 0 |}.

(** A sample assignment of pairwise distinct signal type numbers, under
    which [0x9999] is not a signal type. *)
Definition sample_name (n : Z) : string := "SIGNAL_" ++ hex_of_Z n.

Definition sample_table : SignalTypeTable :=
  {| HEARTBEAT := 0x04; DOCK_REQUEST := 0x01; DOCK_APPROVED := 0x02;
     UNDOCK := 0x05; SHUTDOWN := 0x06;
     FILE_DISCOVERED := 0x10; FILE_INDEXED := 0x11; FILE_MODIFIED := 0x12;
     FILE_DELETED := 0x13;
     SEARCH_STARTED := 0x20; SEARCH_COMPLETED := 0x21; SEARCH_RESULT := 0x22;
     BUILD_STARTED := 0x30; BUILD_COMPLETED := 0x31; BUILD_FAILED := 0x32;
     VERIFICATION_STARTED := 0x40; VERIFICATION_RESULT := 0x41; CLAIM_EXTRACTED := 0x42;
     VALIDATION_APPROVED := 0x50; VALIDATION_REJECTED := 0x51;
     HANDOFF_REQUEST := 0x60; HANDOFF_APPROVED := 0x61; HANDOFF_COMPLETED := 0x62;
     MODE_SWITCH := 0x63;
     ASTROSENTRY_EVENT := 0xE0; ERROR := 0xFF;
     getSignalName := sample_name |}.

(** A host whose text conversions are constant. *)
Definition sample_runtime : Runtime :=
  {| ToNumberText := fun _ => PrimFloat.nan; ToStringOther := fun _ => "?" |}.

Definition sample_clock (n : nat) : Z := 1700000000000 + Z.of_nat n.

Definition sample_rinfo : RemoteInfo := {| address := "127.0.0.1"; port := 3010 |}.

Definition sample_signal (st : Z) (fields : list (string * JsValue)) : Signal :=
  {| signalType := st;
     version := 0x0100;
     sig_timestamp := JNum 1700000000;
     payload := obj (("sender", JStr "neurogenesis") :: fields) |}.

(** ** Vocabulary of the statements *)

(** The record [logAttentionEvent] builds for a signal, given the timestamp
    it settled on. *)
Definition universal_event (T : SignalTypeTable) (signal : Signal) (rinfo : RemoteInfo)
    (ts : float) : AttentionEvent :=
  {| ev_timestamp := ts;
     ev_server_name := sender_of signal;
     event_type := ev_signal;
     target := JStr (signal_name T signal);
     context := JObj (obj [("signal_type", JNum (num_of_Z (signalType signal)));
                           ("data", JObj (data_of signal));
                           ("source_address", JStr (address rinfo));
                           ("source_port", JNum (num_of_Z (port rinfo)))]) |}.

(** [grows m P]: from every world, [m] only appends to the trace, and what it
    appends satisfies [P]. *)
Definition grows {store A} (m : M store A) (P : list Effect -> Prop) : Prop :=
  forall w, exists es, trace (m w).2 = (trace w ++ es)%list /\ P es.

(** [completes m P]: moreover [m] never throws. *)
Definition completes {store} (m : M store unit) (P : list Effect -> Prop) : Prop :=
  forall w, (m w).1 = Normal tt /\
            exists es, trace (m w).2 = (trace w ++ es)%list /\ P es.

(** The handler of a family makes [n] calls to [insertAttentionEvent], none
    of them with [event_type = signal]. *)
Definition family_logs (n : nat) (es : list Effect) : Prop :=
  Forall (fun a => is_signal_event a = false) (attention_calls es) /\
  length (attention_calls es) = n.

(** The signal types whose handler logs an attention event of its own. *)
Definition family_logging_types (T : SignalTypeTable) : list Z :=
  [FILE_DISCOVERED T; FILE_INDEXED T; FILE_MODIFIED T; FILE_DELETED T;
   SEARCH_STARTED T; BUILD_STARTED T;
   HANDOFF_REQUEST T; HANDOFF_APPROVED T; HANDOFF_COMPLETED T; MODE_SWITCH T;
   ASTROSENTRY_EVENT T].

Definition logs_family_event (T : SignalTypeTable) (st : Z) : bool :=
  existsb (Z.eqb st) (family_logging_types T).

Definition emit_names (es : list Effect) : list string :=
  flat_map (fun e => match e with Emit n _ => [n] | _ => [] end) es.

(** The signal types from which an operation is derived. *)
Definition deriving_types (T : SignalTypeTable) : list Z :=
  [SEARCH_COMPLETED T; BUILD_COMPLETED T; BUILD_FAILED T; VERIFICATION_RESULT T;
   ASTROSENTRY_EVENT T].

(** The notifications a routing call that returns has emitted, by signal
    type, in the order of emission. *)
Definition expected_notifications (T : SignalTypeTable) (signal : Signal) : list string :=
  let st := signalType signal in
  if (st =? HEARTBEAT T)%Z then ["server_heartbeat"]
  else if (st =? DOCK_REQUEST T)%Z then []
  else if (st =? UNDOCK T)%Z || (st =? SHUTDOWN T)%Z then ["server_shutdown"]
  else if (st =? FILE_DISCOVERED T)%Z || (st =? FILE_INDEXED T)%Z
          || (st =? FILE_MODIFIED T)%Z || (st =? FILE_DELETED T)%Z
  then ["file_event"]
  else if (st =? SEARCH_STARTED T)%Z || (st =? SEARCH_COMPLETED T)%Z
          || (st =? SEARCH_RESULT T)%Z
  then ["search_event"]
  else if (st =? BUILD_STARTED T)%Z || (st =? BUILD_COMPLETED T)%Z then ["build_event"]
  else if (st =? BUILD_FAILED T)%Z then ["lesson_learned"; "build_event"]
  else if (st =? VERIFICATION_STARTED T)%Z || (st =? VERIFICATION_RESULT T)%Z
          || (st =? CLAIM_EXTRACTED T)%Z
  then ["verification_event"]
  else if (st =? VALIDATION_APPROVED T)%Z then ["validation_event"]
  else if (st =? VALIDATION_REJECTED T)%Z then ["validation_event"; "pattern_candidate"]
  else if (st =? HANDOFF_REQUEST T)%Z || (st =? HANDOFF_APPROVED T)%Z
          || (st =? HANDOFF_COMPLETED T)%Z || (st =? MODE_SWITCH T)%Z
  then ["coordination_event"]
  else if (st =? ASTROSENTRY_EVENT T)%Z then
    if strict_eq_str (field (payload signal) "outcome") "failure"
    then ["astrosentry_event"; "pattern_candidate"]
    else ["astrosentry_event"]
  else if (st =? ERROR T)%Z then ["error_received"; "pattern_candidate"]
  else ["unknown_signal"].

(** The names under which the router notifies. *)
Definition notification_names : list string :=
  ["server_heartbeat"; "server_shutdown"; "file_event"; "search_event"; "build_event";
   "lesson_learned"; "verification_event"; "validation_event"; "pattern_candidate";
   "coordination_event"; "astrosentry_event"; "error_received"; "unknown_signal"].

(** [returns_with m P]: from every world, [m] only appends to the trace, and
    when it returns normally what it appended satisfies [P]. *)
Definition returns_with {store} (m : M store unit) (P : list Effect -> Prop) : Prop :=
  forall w, exists es, trace (m w).2 = (trace w ++ es)%list /\
                       ((m w).1 = Normal tt -> P es).

(** ** HTTP middleware (src/http/middleware)

    Requests and responses carry what the middleware reads and writes.
    Times, counts and limits are integers. *)

Module Http.
Local Open Scope Z_scope.

Record Request : Type := {
  method : string;
  path : string;
  (** [req.ip] and [req.socket.remoteAddress], either of which may be
      undefined. *)
  ip : option string;
  remoteAddress : option string;
  (** [req.headers], by lower-cased name. *)
  headers : gmap string string;
  requestId : option string
}.

Inductive HeaderValue : Type :=
| HStr (s : string)
| HNum (n : Z).

(** The three JSON bodies the middleware sends. *)
Inductive Body : Type :=
| TooManyRequests (error message : string) (retryAfter : Z) (retryable : bool)
| ErrorResponse (error : string) (code : option string) (retryable : bool)
                (requestId timestamp : string)
| NotFound (error message code : string) (retryable : bool) (requestId timestamp : string).

Record Response : Type := {
  statusCode : Z;
  sent_headers : gmap string HeaderValue;
  body : option Body
}.

(** A response nothing has been written to. *)
Definition new_response : Response :=
  {| statusCode := 200; sent_headers := ∅; body := None |}.

Definition setHeader (name : string) (v : HeaderValue) (res : Response) : Response :=
  {| statusCode := statusCode res;
     sent_headers := <[name := v]> (sent_headers res);
     body := body res |}.

Definition status (code : Z) (res : Response) : Response :=
  {| statusCode := code; sent_headers := sent_headers res; body := body res |}.

Definition json (b : Body) (res : Response) : Response :=
  {| statusCode := statusCode res; sent_headers := sent_headers res; body := Some b |}.

(** [a || b] on strings that may be undefined. *)
Definition or_string (a : option string) (b : string) : string :=
  match a with
  | Some s => if String.eqb s "" then b else s
  | None => b
  end.

(** *** request-id.ts *)

(** [fresh] is what [randomUUID()] returns when it is called. The result
    holds the request, the response, and whether [next()] was called. *)
Definition requestIdMiddleware (fresh : string) (req : Request) (res : Response)
  : Request * Response * bool :=
  let id := or_string (headers req !! "x-request-id") fresh in
  ({| method := method req; path := path req; ip := ip req;
      remoteAddress := remoteAddress req; headers := headers req;
      requestId := Some id |},
   setHeader "X-Request-ID" (HStr id) res,
   true).

(** *** error-handler.ts *)

Inductive JsError : Type :=
| AppError (message : string) (statusCode : Z) (isRetryable : bool) (code : option string)
| OtherError (message : string).

Definition error_message (err : JsError) : string :=
  match err with
  | AppError m _ _ _ => m
  | OtherError m => m
  end.

(** [new AppError(message, statusCode = 500, isRetryable = false, code)]. *)
Definition new_AppError (message : string) (statusCode : option Z)
    (isRetryable : option bool) (code : option string) : JsError :=
  AppError message (default 500 statusCode) (default false isRetryable) code.

Definition badRequest (message : string) (code : option string) : JsError :=
  new_AppError message (Some 400) (Some false) (Some (or_string code "BAD_REQUEST")).

Definition unauthorized (message : option string) : JsError :=
  new_AppError (default "Unauthorized" message) (Some 401) (Some false) (Some "UNAUTHORIZED").

Definition forbidden (message : option string) : JsError :=
  new_AppError (default "Forbidden" message) (Some 403) (Some false) (Some "FORBIDDEN").

Definition notFound (message : option string) : JsError :=
  new_AppError (default "Not Found" message) (Some 404) (Some false) (Some "NOT_FOUND").

Definition conflict (message : string) (code : option string) : JsError :=
  new_AppError message (Some 409) (Some false) (Some (or_string code "CONFLICT")).

Definition internal (message : option string) : JsError :=
  new_AppError (default "Internal Server Error" message) (Some 500) (Some true)
               (Some "INTERNAL_ERROR").

Definition serviceUnavailable (message : option string) : JsError :=
  new_AppError (default "Service Unavailable" message) (Some 503) (Some true)
               (Some "SERVICE_UNAVAILABLE").

(** The errors the static factories of [AppError] build. *)
Inductive from_factory : JsError -> Prop :=
| made_badRequest m c : from_factory (badRequest m c)
| made_unauthorized m : from_factory (unauthorized m)
| made_forbidden m : from_factory (forbidden m)
| made_notFound m : from_factory (notFound m)
| made_conflict m c : from_factory (conflict m c)
| made_internal m : from_factory (internal m)
| made_serviceUnavailable m : from_factory (serviceUnavailable m).

(** What [console.error] is called with. *)
Inductive LogLine : Type :=
| LogError (line : string) (message : string)
| LogStack (err : JsError).

(** [NODE_ENV] is [process.env.NODE_ENV]; [now] is what
    [new Date().toISOString()] returns. *)
Definition errorHandlerMiddleware (NODE_ENV : option string) (now : string)
    (err : JsError) (req : Request) (res : Response) : Response * list LogLine :=
  let id := or_string (requestId req) "unknown" in
  let logged :=
    LogError ("[" ++ id ++ "] Error:") (error_message err)
    :: (if bool_decide (NODE_ENV = Some "production") then [] else [LogStack err]) in
  match err with
  | AppError m sc retry code =>
      (json (ErrorResponse m code retry id now) (status sc res), logged)
  | OtherError _ =>
      (json (ErrorResponse "Internal Server Error" (Some "INTERNAL_ERROR") true id now)
            (status 500 res), logged)
  end.

Definition notFoundHandler (now : string) (req : Request) (res : Response) : Response :=
  let id := or_string (requestId req) "unknown" in
  json (NotFound "Not Found"
                 ("Route " ++ method req ++ " " ++ path req ++ " not found")
                 "NOT_FOUND" false id now)
       (status 404 res).

(** *** rate-limit.ts *)

Record RateLimitEntry : Type := {
  count : Z;
  resetTime : Z
}.

Record RateLimitOptions : Type := {
  windowMs : option Z;
  maxRequests : option Z;
  skipPaths : option (list string)
}.

(** [Required<RateLimitOptions>]. *)
Record Options : Type := {
  window : Z;
  limit : Z;
  skipped : list string
}.

Definition DEFAULT_OPTIONS : Options :=
  {| window := 60 * 1000;
     limit := 100;
     skipped := ["/health"; "/health/ready"; "/health/detailed"] |}.

(** [{ ...DEFAULT_OPTIONS, ...options }]. *)
Definition merge_options (options : RateLimitOptions) : Options :=
  {| window := default (window DEFAULT_OPTIONS) (windowMs options);
     limit := default (limit DEFAULT_OPTIONS) (maxRequests options);
     skipped := default (skipped DEFAULT_OPTIONS) (skipPaths options) |}.

(** [Math.ceil(a / 1000)]. *)
Definition ceil_seconds (a : Z) : Z := - ((- a) / 1000).

(** [req.path === path || req.path.startsWith(path)] for some skip path. *)
Definition skips (opts : Options) (req : Request) : bool :=
  existsb (fun p => String.eqb (path req) p || String.prefix p (path req)) (skipped opts).

(** [req.ip || req.socket.remoteAddress || 'unknown']. *)
Definition client_of (req : Request) : string :=
  match ip req with
  | Some s => if String.eqb s "" then or_string (remoteAddress req) "unknown" else s
  | None => or_string (remoteAddress req) "unknown"
  end.

(** The middleware [createRateLimitMiddleware] returns, run at the clock
    reading [now] on the module's entry map: the map it leaves, the response,
    and whether [next()] was called. The entry it counts on is the one the map
    holds, so the increment shows in the map. *)
Definition rateLimit (opts : Options) (now : Z) (req : Request) (res : Response)
    (store : gmap string RateLimitEntry)
  : gmap string RateLimitEntry * Response * bool :=
  if skips opts req then (store, res, true)
  else
    let client := client_of req in
    let fresh := {| count := 0; resetTime := now + window opts |} in
    let entry :=
      match store !! client with
      | Some e => if (now >? resetTime e)%Z then fresh else e
      | None => fresh
      end in
    let counted := {| count := count entry + 1; resetTime := resetTime entry |} in
    let store' := <[client := counted]> store in
    let res' :=
      setHeader "X-RateLimit-Reset" (HNum (ceil_seconds (resetTime counted)))
        (setHeader "X-RateLimit-Remaining" (HNum (Z.max 0 (limit opts - count counted)))
           (setHeader "X-RateLimit-Limit" (HNum (limit opts)) res)) in
    if (count counted >? limit opts)%Z then
      let retryAfter := ceil_seconds (resetTime counted - now) in
      (store',
       json (TooManyRequests "Too Many Requests"
               ("Rate limit exceeded. Try again in " ++ dec_of_Z retryAfter ++ " seconds.")
               retryAfter true)
            (status 429 (setHeader "Retry-After" (HNum retryAfter) res')),
       false)
    else (store', res', true).

Definition createRateLimitMiddleware (options : RateLimitOptions) :=
  rateLimit (merge_options options).

(** The callback [startCleanup] hands to the timer, run at the clock reading
    [now]. *)
Definition cleanup (now : Z) (store : gmap string RateLimitEntry)
  : gmap string RateLimitEntry :=
  filter (fun kv => ~ (now > resetTime kv.2)%Z) store.

(** A sequence of requests, each with the clock reading it arrives at and a
    response of its own, served in order. *)
Fixpoint serve (opts : Options) (arrivals : list (Z * Request))
    (store : gmap string RateLimitEntry)
  : list (Response * bool) * gmap string RateLimitEntry :=
  match arrivals with
  | [] => ([], store)
  | (now, req) :: rest =>
      let '(store', res, passed) := rateLimit opts now req new_response store in
      let '(served, final) := serve opts rest store' in
      ((res, passed) :: served, final)
  end.

(** A request to run the middleware on. *)
Definition sample_request (p client : string) : Request :=
  {| method := "GET"; path := p; ip := Some client; remoteAddress := None;
     headers := ∅; requestId := None |}.

Definition sample_options : Options :=
  {| window := 60000; limit := 2; skipped := ["/health"] |}.

End Http.

(** ** Symbolic execution of the handlers *)

Ltac unfold_router :=
  unfold route, logAttentionEvent, handleHeartbeat, handleDockRequest, handleShutdown,
    handleFileEvent, handleSearchEvent, handleBuildEvent, handleVerificationEvent,
    handleValidationEvent, handleCoordinationEvent, handleAstrosentryEvent, handleError,
    handleUnknownSignal, timestamp_ms, js_or_else, db_insertAttentionEvent,
    db_insertOperation, console_error, emit, sendResponse, perform, Date_now, try_catch,
    mbind, M_bind, mret, M_ret.

Ltac branch :=
  match goal with
  | |- context [match insertAttentionEvent ?s ?e ?d with _ => _ end] =>
      destruct (insertAttentionEvent s e d) eqn:?
  | |- context [match insertOperation ?s ?o ?d with _ => _ end] =>
      destruct (insertOperation s o d) eqn:?
  | |- context [if truthy ?v then _ else _] => destruct (truthy v) eqn:?
  | |- context [if strict_eq_str ?a ?b then _ else _] => destruct (strict_eq_str a b) eqn:?
  | |- context [Z.eqb ?a ?b] => destruct (Z.eqb_spec a b)
  end.

Ltac exec := unfold_router; simpl; repeat (branch; simpl).

Lemma grow_step (tr t es : list Effect) (e : Effect) :
  t = (tr ++ es)%list -> (t ++ [e])%list = (tr ++ (es ++ [e]))%list.
Proof. intros ->. symmetry. apply app_assoc. Qed.

Lemma grow_done (tr : list Effect) : tr = (tr ++ [])%list.
Proof. symmetry. apply app_nil_r. Qed.

Ltac close_trace :=
  eexists; split; [repeat apply grow_step; apply grow_done | simpl].

Lemma effects_of_app {store A} (m : M store A) (w : World store) (es : list Effect) :
  trace (m w).2 = (trace w ++ es)%list -> effects_of m w = es.
Proof. intros H. unfold effects_of. rewrite H. apply drop_app_length. Qed.

Ltac solve_family_logs := unfold family_logs; simpl; repeat constructor; auto.
Ltac by_exec := intros w; exec; close_trace; solve_family_logs.

Section Handlers.
Variables (store : Store) (rt : Runtime) (T : SignalTypeTable) (clock : nat -> Z)
          (sid : string) (signal : Signal) (rinfo : RemoteInfo).

Lemma handleHeartbeat_logs : grows (handleHeartbeat store signal rinfo) (family_logs 0).
Proof. by_exec. Qed.
Lemma handleDockRequest_logs :
  grows (handleDockRequest store T clock sid signal rinfo) (family_logs 0).
Proof. by_exec. Qed.
Lemma handleShutdown_logs : grows (handleShutdown store rt signal rinfo) (family_logs 0).
Proof. by_exec. Qed.
Lemma handleFileEvent_logs :
  grows (handleFileEvent store rt T clock signal rinfo) (family_logs 1).
Proof. by_exec. Qed.
Lemma handleSearchEvent_logs :
  grows (handleSearchEvent store rt T clock signal rinfo)
        (family_logs (if (signalType signal =? SEARCH_STARTED T)%Z then 1 else 0)).
Proof. by_exec. Qed.
Lemma handleBuildEvent_logs :
  grows (handleBuildEvent store rt T clock signal rinfo)
        (family_logs (if (signalType signal =? BUILD_STARTED T)%Z then 1 else 0)).
Proof. by_exec. Qed.
Lemma handleVerificationEvent_logs :
  grows (handleVerificationEvent store rt T clock signal rinfo) (family_logs 0).
Proof. by_exec. Qed.
Lemma handleValidationEvent_logs :
  grows (handleValidationEvent store T signal rinfo) (family_logs 0).
Proof. by_exec. Qed.
Lemma handleCoordinationEvent_logs :
  grows (handleCoordinationEvent store rt T clock signal rinfo) (family_logs 1).
Proof. by_exec. Qed.
Lemma handleAstrosentryEvent_logs :
  grows (handleAstrosentryEvent store rt clock signal rinfo) (family_logs 1).
Proof. by_exec. Qed.
Lemma handleError_logs : grows (handleError store rt signal rinfo) (family_logs 0).
Proof. by_exec. Qed.
Lemma handleUnknownSignal_logs :
  grows (handleUnknownSignal store rt signal rinfo) (family_logs 0).
Proof. by_exec. Qed.
End Handlers.

(** The case labels, pairwise distinct, as separate facts. *)
Ltac split_cases H :=
  unfold switch_cases in H;
  repeat (apply NoDup_cons in H as [? H]);
  clear H;
  repeat match goal with
         | Hn : _ ∉ _ :: _ |- _ => apply not_elem_of_cons in Hn as [? Hn]
         | Hn : _ ∉ [] |- _ => clear Hn
         end.

Ltac decide_labels :=
  repeat match goal with
         | |- context [Z.eqb ?a ?a] => rewrite (Z.eqb_refl a)
         | |- context [Z.eqb ?a ?b] =>
             let E := fresh "E" in
             destruct (Z.eqb_spec a b) as [E | E]; [exfalso; congruence | clear E]
         end.

Section Routing.
Variables (store : Store) (rt : Runtime) (T : SignalTypeTable) (clock : nat -> Z)
          (sid : string) (signal : Signal) (rinfo : RemoteInfo).

(** What [route] does before the [switch]: the reception line, then the
    universal attention event, whose rejection by the store is caught and
    reported on the console. *)
Lemma route_prologue (w : World store) :
  exists w1 line ts tail,
    route store rt T clock sid signal rinfo w
      = dispatch store rt T clock sid signal rinfo w1 /\
    trace w1 = (trace w ++ ConsoleError line None
                  :: CallInsertAttentionEvent (universal_event T signal rinfo ts)
                  :: tail)%list /\
    ((tail = [] /\
      insertAttentionEvent store (universal_event T signal rinfo ts) (db w) = inr (db w1)) \/
     (exists e, tail = [ConsoleError "[Handlers] Failed to log attention event:" (Some e)] /\
                db w1 = db w)).
Proof.
  unfold route, logAttentionEvent, timestamp_ms, db_insertAttentionEvent, console_error,
    perform, Date_now, try_catch, mbind, M_bind, mret, M_ret, universal_event.
  simpl.
  destruct (truthy _); simpl;
    match goal with
    | |- context [insertAttentionEvent ?s ?e ?d] =>
        destruct (insertAttentionEvent s e d) eqn:Hins
    end; simpl;
    eexists; eexists; eexists; eexists;
    (split; [reflexivity | split; [simpl; rewrite <- !app_assoc; reflexivity | ]]);
    simpl; eauto.
Qed.

Ltac use_handler_logs :=
  first
    [ edestruct handleHeartbeat_logs as (es & Htr & Hl); exists es; split; [exact Htr | ]
    | edestruct handleDockRequest_logs as (es & Htr & Hl); exists es; split; [exact Htr | ]
    | edestruct handleShutdown_logs as (es & Htr & Hl); exists es; split; [exact Htr | ]
    | edestruct handleFileEvent_logs as (es & Htr & Hl); exists es; split; [exact Htr | ]
    | edestruct handleSearchEvent_logs as (es & Htr & Hl); exists es; split; [exact Htr | ]
    | edestruct handleBuildEvent_logs as (es & Htr & Hl); exists es; split; [exact Htr | ]
    | edestruct handleVerificationEvent_logs as (es & Htr & Hl);
      exists es; split; [exact Htr | ]
    | edestruct handleValidationEvent_logs as (es & Htr & Hl);
      exists es; split; [exact Htr | ]
    | edestruct handleCoordinationEvent_logs as (es & Htr & Hl);
      exists es; split; [exact Htr | ]
    | edestruct handleAstrosentryEvent_logs as (es & Htr & Hl);
      exists es; split; [exact Htr | ]
    | edestruct handleError_logs as (es & Htr & Hl); exists es; split; [exact Htr | ]
    | edestruct handleUnknownSignal_logs as (es & Htr & Hl);
      exists es; split; [exact Htr | ] ].

(** Whatever the table, the handler selected by the [switch] logs at most
    one attention event of its own, never of type [signal]. *)
Lemma dispatch_logs :
  grows (dispatch store rt T clock sid signal rinfo)
        (fun es => exists n, family_logs n es /\ n <= 1).
Proof.
  intros w. unfold dispatch.
  repeat match goal with
         | |- context [Z.eqb ?a ?b] => destruct (Z.eqb_spec a b); cbn [orb]
         end.
  all: use_handler_logs.
  all: eexists; split; [exact Hl | ]; clear Htr Hl.
  all: repeat match goal with
              | |- context [Z.eqb ?a ?b] => destruct (Z.eqb_spec a b)
              end; lia.
Qed.

(** With pairwise distinct case labels, the handler logs an event of its
    own exactly for the signal types of [family_logging_types]. *)
Lemma dispatch_logs_exactly :
  NoDup (switch_cases T) ->
  grows (dispatch store rt T clock sid signal rinfo)
        (family_logs (if logs_family_event T (signalType signal) then 1 else 0)).
Proof.
  intros Hnd w. split_cases Hnd. unfold dispatch.
  repeat match goal with
         | |- context [Z.eqb ?a ?b] => destruct (Z.eqb_spec a b); cbn [orb]
         end.
  all: use_handler_logs.
  all: clear Htr;
    unfold logs_family_event, family_logging_types; cbn [existsb orb];
    repeat (match goal with
            | |- context [Z.eqb ?a ?b] =>
                destruct (Z.eqb_spec a b); [ | try (exfalso; congruence)]
            end; cbn [orb]);
    try exact Hl; try (exfalso; congruence).
Qed.

Lemma attention_calls_app (es1 es2 : list Effect) :
  attention_calls (es1 ++ es2) = (attention_calls es1 ++ attention_calls es2)%list.
Proof. apply flat_map_app. Qed.

Lemma operation_calls_app (es1 es2 : list Effect) :
  operation_calls (es1 ++ es2) = (operation_calls es1 ++ operation_calls es2)%list.
Proof. apply flat_map_app. Qed.

(** The effects of a routing call: the prologue, then those of the
    [switch]. *)
Lemma route_effects (w : World store) :
  exists w1 line ts tail,
    route store rt T clock sid signal rinfo w
      = dispatch store rt T clock sid signal rinfo w1 /\
    (tail = [] \/
     exists e, tail = [ConsoleError "[Handlers] Failed to log attention event:" (Some e)]) /\
    forall es,
      trace (dispatch store rt T clock sid signal rinfo w1).2 = (trace w1 ++ es)%list ->
      effects_of (route store rt T clock sid signal rinfo) w
        = ConsoleError line None
            :: CallInsertAttentionEvent (universal_event T signal rinfo ts)
            :: (tail ++ es)%list.
Proof.
  destruct (route_prologue w) as (w1 & line & ts & tail & Hr & Htr & Hdb).
  exists w1, line, ts, tail. split; [exact Hr | split].
  - destruct Hdb as [[-> _] | (e & -> & _)]; eauto.
  - intros es Hes. apply effects_of_app. rewrite Hr, Hes, Htr.
    rewrite <- app_assoc. reflexivity.
Qed.

(** A routing call whose handler never throws: what the observers see. *)
Lemma route_with_handler (h : M store unit) (P : list Effect -> Prop) :
  dispatch store rt T clock sid signal rinfo = h ->
  completes h P ->
  forall w,
    completion_of (route store rt T clock sid signal rinfo) w = Normal tt /\
    exists ts es,
      let all := effects_of (route store rt T clock sid signal rinfo) w in
      P es /\
      attention_calls all = universal_event T signal rinfo ts :: attention_calls es /\
      operation_calls all = operation_calls es /\
      emit_names all = emit_names es /\
      (forall n, emitted n all = emitted n es) /\
      responses all = responses es.
Proof.
  intros Hd Hc w.
  destruct (route_effects w) as (w1 & line & ts & tail & Hr & Htail & Heff).
  rewrite Hd in Hr, Heff.
  destruct (Hc w1) as (Hn & es & Hes & HP).
  split; [unfold completion_of; rewrite Hr; exact Hn | ].
  exists ts, es. cbv zeta. rewrite (Heff es Hes).
  split; [exact HP | ].
  destruct Htail as [-> | (e & ->)]; simpl; repeat split; reflexivity.
Qed.
End Routing.

(** ** Selection of a handler by the [switch] *)

Section Selection.
Variables (store : Store) (rt : Runtime) (T : SignalTypeTable) (clock : nat -> Z)
          (sid : string) (signal : Signal) (rinfo : RemoteInfo).

Lemma dispatch_unknown :
  signalType signal ∉ switch_cases T ->
  dispatch store rt T clock sid signal rinfo = handleUnknownSignal store rt signal rinfo.
Proof.
  intros H. unfold switch_cases in H.
  repeat (apply not_elem_of_cons in H as [? H]). clear H.
  unfold dispatch. decide_labels. reflexivity.
Qed.

Lemma dispatch_dock_request :
  NoDup (switch_cases T) -> signalType signal = DOCK_REQUEST T ->
  dispatch store rt T clock sid signal rinfo
    = handleDockRequest store T clock sid signal rinfo.
Proof.
  intros H Hst. split_cases H. unfold dispatch. rewrite Hst. decide_labels. reflexivity.
Qed.

Lemma dispatch_search_completed :
  NoDup (switch_cases T) -> signalType signal = SEARCH_COMPLETED T ->
  dispatch store rt T clock sid signal rinfo
    = handleSearchEvent store rt T clock signal rinfo /\
  signalType signal <> SEARCH_STARTED T.
Proof.
  intros H Hst. split_cases H. unfold dispatch. rewrite Hst. decide_labels.
  split; [reflexivity | congruence].
Qed.

Lemma dispatch_build_completed :
  NoDup (switch_cases T) -> signalType signal = BUILD_COMPLETED T ->
  dispatch store rt T clock sid signal rinfo
    = handleBuildEvent store rt T clock signal rinfo /\
  signalType signal <> BUILD_STARTED T.
Proof.
  intros H Hst. split_cases H. unfold dispatch. rewrite Hst. decide_labels.
  split; [reflexivity | congruence].
Qed.

Lemma dispatch_build_failed :
  NoDup (switch_cases T) -> signalType signal = BUILD_FAILED T ->
  dispatch store rt T clock sid signal rinfo
    = handleBuildEvent store rt T clock signal rinfo /\
  signalType signal <> BUILD_STARTED T /\ signalType signal <> BUILD_COMPLETED T.
Proof.
  intros H Hst. split_cases H. unfold dispatch. rewrite Hst. decide_labels.
  split; [reflexivity | split; congruence].
Qed.

Lemma dispatch_verification_result :
  NoDup (switch_cases T) -> signalType signal = VERIFICATION_RESULT T ->
  dispatch store rt T clock sid signal rinfo
    = handleVerificationEvent store rt T clock signal rinfo.
Proof.
  intros H Hst. split_cases H. unfold dispatch. rewrite Hst. decide_labels. reflexivity.
Qed.
End Selection.

(** ** Sample runs *)

Lemma sample_table_distinct : NoDup (switch_cases sample_table).
Proof. apply (bool_decide_unpack _). vm_compute. exact I. Qed.

Lemma sample_unknown_type : (0x9999 : Z) ∉ switch_cases sample_table.
Proof. apply (bool_decide_unpack _). vm_compute. exact I. Qed.

Lemma filter_none {A} (f : A -> bool) (l : list A) :
  Forall (fun a => f a = false) l -> List.filter f l = [].
Proof.
  induction 1 as [ | a l Ha _ IH]; simpl; [reflexivity | ].
  rewrite Ha. exact IH.
Qed.

(** ** The universal attention event *)

(** C7: for every signal type, [route] calls the logger exactly once with an
    attention event of [event_type = signal] whose target is the name of the
    signal type; that call follows the reception line on the console and
    precedes everything the family handler does, and no later call logs an
    event of type [signal]. *)
Theorem route_logs_signal_first
    (store : Store) (rt : Runtime) (T : SignalTypeTable) (clock : nat -> Z) (sid : string)
    (signal : Signal) (rinfo : RemoteInfo) (w : World store) :
  exists line ev rest,
    effects_of (route store rt T clock sid signal rinfo) w
      = ConsoleError line None :: CallInsertAttentionEvent ev :: rest /\
    event_type ev = ev_signal /\
    target ev = JStr (getSignalName T (signalType signal)) /\
    Forall (fun a => is_signal_event a = false) (attention_calls rest).
Proof.
  destruct (route_effects store rt T clock sid signal rinfo w)
    as (w1 & line & ts & tail & Hr & Htail & Heff).
  destruct (dispatch_logs store rt T clock sid signal rinfo w1)
    as (es & Hes & n & [Hall _] & _).
  exists line, (universal_event T signal rinfo ts), (tail ++ es)%list.
  split; [exact (Heff es Hes) | ].
  split; [reflexivity | split; [reflexivity | ]].
  rewrite attention_calls_app.
  destruct Htail as [-> | (e & ->)]; exact Hall.
Qed.

(** C2 (as amended): one call to [route] makes exactly one
    [insertAttentionEvent] call with [event_type = signal]; it is the only
    call, except for the signal types whose family logs an event of its own
    (file events, search-started, build-started, the coordination signals and
    astrosentry events), for which the call makes two. *)
Theorem route_attention_event_count
    (store : Store) (rt : Runtime) (T : SignalTypeTable) (clock : nat -> Z) (sid : string)
    (signal : Signal) (rinfo : RemoteInfo) (w : World store) :
  NoDup (switch_cases T) ->
  let calls := attention_calls (effects_of (route store rt T clock sid signal rinfo) w) in
  length (List.filter is_signal_event calls) = 1 /\
  length calls = if logs_family_event T (signalType signal) then 2 else 1.
Proof.
  intros Hnd.
  destruct (route_effects store rt T clock sid signal rinfo w)
    as (w1 & line & ts & tail & Hr & Htail & Heff).
  destruct (dispatch_logs_exactly store rt T clock sid signal rinfo Hnd w1)
    as (es & Hes & Hall & Hlen).
  cbv zeta. rewrite (Heff es Hes). simpl.
  rewrite attention_calls_app.
  replace (attention_calls tail) with (@nil AttentionEvent)
    by (destruct Htail as [-> | (e & ->)]; reflexivity).
  simpl. rewrite (filter_none _ _ Hall), Hlen.
  split; [reflexivity | ].
  destruct (logs_family_event T (signalType signal)); reflexivity.
Qed.

Lemma route_attention_event_count_witness :
  let signal := sample_signal 0x10 [("path", JStr "/srv/notes.md")] in
  let calls :=
    attention_calls
      (effects_of (route ideal_store sample_runtime sample_table sample_clock
                         "consciousness-mcp" signal sample_rinfo)
                  (initial_world ideal_store empty_db)) in
  length (List.filter is_signal_event calls) = 1 /\
  length calls = if logs_family_event sample_table (signalType signal) then 2 else 1.
Proof.
  exact (route_attention_event_count ideal_store sample_runtime sample_table sample_clock
           "consciousness-mcp" (sample_signal 0x10 [("path", JStr "/srv/notes.md")])
           sample_rinfo (initial_world ideal_store empty_db) sample_table_distinct).
Defined.

(** C2 (as stated) fails: routing a file-discovered signal against a store
    that accepts every write makes two [insertAttentionEvent] calls, the
    universal one and the file handler's. *)
Lemma route_file_event_logs_twice :
  let signal := sample_signal (FILE_DISCOVERED sample_table) [("path", JStr "/srv/notes.md")] in
  let es := effects_of (route ideal_store sample_runtime sample_table sample_clock
                              "consciousness-mcp" signal sample_rinfo)
                       (initial_world ideal_store empty_db) in
  map event_type (attention_calls es) = [ev_signal; ev_file] /\
  length (attention_calls es) <> 1.
Proof. vm_compute. split; [reflexivity | discriminate]. Qed.

(** ** Handlers that never throw *)

Section Completing.
Variables (store : Store) (rt : Runtime) (T : SignalTypeTable) (clock : nat -> Z)
          (sid : string) (signal : Signal) (rinfo : RemoteInfo).

Lemma handleUnknownSignal_completes :
  completes (handleUnknownSignal store rt signal rinfo)
    (fun es => attention_calls es = [] /\ operation_calls es = [] /\
               responses es = [] /\
               emit_names es = ["unknown_signal"] /\
               emitted "unknown_signal" es
                 = [obj [("type", JNum (num_of_Z (signalType signal)));
                         ("server", sender_of signal);
                         ("data", JObj (data_of signal))]]).
Proof.
  intros w. split; [reflexivity | ].
  unfold_router; simpl. close_trace. repeat split; reflexivity.
Qed.

Lemma handleDockRequest_completes :
  completes (handleDockRequest store T clock sid signal rinfo)
    (fun es => attention_calls es = [] /\ operation_calls es = [] /\ emit_names es = [] /\
               exists n,
                 responses es
                 = [(address rinfo, port rinfo,
                     {| signalType := DOCK_APPROVED T;
                        version := 0x0100;
                        sig_timestamp := JNum (num_of_Z (clock n / 1000));
                        payload :=
                          obj [("sender", JStr sid);
                               ("approved", JBool true);
                               ("message", JStr "Welcome to the consciousness mesh");
                               ("capabilities",
                                JArr [JStr "awareness"; JStr "pattern-detection";
                                      JStr "reflection"])] |})]).
Proof.
  intros w. split; [reflexivity | ].
  unfold_router; simpl. close_trace. repeat split; try reflexivity.
  exists (ticks w). reflexivity.
Qed.
End Completing.

(** ** Dock requests *)

(** C8: a dock request from any sender is answered, at the address and port
    it came from, by exactly one signal of type DOCK_APPROVED that carries
    the observer's identity, [approved = true], the welcome message, version
    0x0100 and the fixed capability list; the call does not throw and sends
    nothing else. *)
Theorem route_dock_request_approved
    (store : Store) (rt : Runtime) (T : SignalTypeTable) (clock : nat -> Z) (sid : string)
    (signal : Signal) (rinfo : RemoteInfo) (w : World store) :
  NoDup (switch_cases T) ->
  signalType signal = DOCK_REQUEST T ->
  raises (completion_of (route store rt T clock sid signal rinfo) w) = false /\
  exists n,
    responses (effects_of (route store rt T clock sid signal rinfo) w)
    = [(address rinfo, port rinfo,
        {| signalType := DOCK_APPROVED T;
           version := 0x0100;
           sig_timestamp := JNum (num_of_Z (clock n / 1000));
           payload :=
             obj [("sender", JStr sid);
                  ("approved", JBool true);
                  ("message", JStr "Welcome to the consciousness mesh");
                  ("capabilities",
                   JArr [JStr "awareness"; JStr "pattern-detection"; JStr "reflection"])] |})].
Proof.
  intros Hnd Hst.
  destruct (route_with_handler store rt T clock sid signal rinfo _ _
              (dispatch_dock_request store rt T clock sid signal rinfo Hnd Hst)
              (handleDockRequest_completes store T clock sid signal rinfo) w)
    as (Hc & ts & es & (_ & _ & _ & n & Hresp) & _ & _ & _ & _ & Hr).
  split; [rewrite Hc; reflexivity | ].
  exists n. rewrite Hr. exact Hresp.
Qed.

Lemma route_dock_request_approved_witness :
  let m := route ideal_store sample_runtime sample_table sample_clock "consciousness-mcp"
                 (sample_signal 0x01 []) sample_rinfo in
  let w := initial_world ideal_store empty_db in
  raises (completion_of m w) = false /\
  exists n,
    responses (effects_of m w)
    = [("127.0.0.1", 3010%Z,
        {| signalType := 0x02;
           version := 0x0100;
           sig_timestamp := JNum (num_of_Z (sample_clock n / 1000));
           payload :=
             obj [("sender", JStr "consciousness-mcp");
                  ("approved", JBool true);
                  ("message", JStr "Welcome to the consciousness mesh");
                  ("capabilities",
                   JArr [JStr "awareness"; JStr "pattern-detection"; JStr "reflection"])] |})].
Proof.
  exact (route_dock_request_approved ideal_store sample_runtime sample_table sample_clock
           "consciousness-mcp" (sample_signal 0x01 []) sample_rinfo
           (initial_world ideal_store empty_db) sample_table_distinct eq_refl).
Defined.

(** ** Unrecognized signal types *)

(** C9: a signal whose type is none of the case labels (such as 0x9999) still
    produces one attention event, the universal one, and exactly one
    notification, [unknown_signal], which carries the raw numeric type; no
    operation is derived and the call does not throw. *)
Theorem route_unknown_signal
    (store : Store) (rt : Runtime) (T : SignalTypeTable) (clock : nat -> Z) (sid : string)
    (signal : Signal) (rinfo : RemoteInfo) (w : World store) :
  signalType signal ∉ switch_cases T ->
  let es := effects_of (route store rt T clock sid signal rinfo) w in
  raises (completion_of (route store rt T clock sid signal rinfo) w) = false /\
  (exists ts, attention_calls es = [universal_event T signal rinfo ts]) /\
  emit_names es = ["unknown_signal"] /\
  emitted "unknown_signal" es
    = [obj [("type", JNum (num_of_Z (signalType signal)));
            ("server", sender_of signal);
            ("data", JObj (data_of signal))]] /\
  operation_calls es = [].
Proof.
  intros Hst.
  destruct (route_with_handler store rt T clock sid signal rinfo _ _
              (dispatch_unknown store rt T clock sid signal rinfo Hst)
              (handleUnknownSignal_completes store rt signal rinfo) w)
    as (Hc & ts & es & (Ha & Ho & _ & Hn & He) & Hatt & Hops & Hnames & Hem & _).
  cbv zeta. split; [rewrite Hc; reflexivity | ].
  split; [exists ts; rewrite Hatt, Ha; reflexivity | ].
  split; [rewrite Hnames; exact Hn | ].
  split; [rewrite Hem; exact He | ].
  rewrite Hops. exact Ho.
Qed.

Lemma route_unknown_signal_witness :
  let signal := sample_signal 0x9999 [("note", JStr "?")] in
  let m := route ideal_store sample_runtime sample_table sample_clock "consciousness-mcp"
                 signal sample_rinfo in
  let es := effects_of m (initial_world ideal_store empty_db) in
  raises (completion_of m (initial_world ideal_store empty_db)) = false /\
  (exists ts, attention_calls es = [universal_event sample_table signal sample_rinfo ts]) /\
  emit_names es = ["unknown_signal"] /\
  emitted "unknown_signal" es
    = [obj [("type", JNum (num_of_Z 0x9999));
            ("server", sender_of signal);
            ("data", JObj (data_of signal))]] /\
  operation_calls es = [].
Proof.
  exact (route_unknown_signal ideal_store sample_runtime sample_table sample_clock
           "consciousness-mcp" (sample_signal 0x9999 [("note", JStr "?")]) sample_rinfo
           (initial_world ideal_store empty_db) sample_unknown_type).
Defined.

(** ** Operation derivation *)

Lemma field_data (signal : Signal) (k : string) :
  k <> "sender" -> field (data_of signal) k = field (payload signal) k.
Proof.
  intros Hk. unfold field, data_of. rewrite lookup_delete_ne by congruence. reflexivity.
Qed.

Lemma falsy_quality : forall rt, JNum (Math_min 1 (js_div rt (JNum 0) 10)) = JNum 0.
Proof. intros rt. vm_compute. reflexivity. Qed.

Section Deriving.
Variables (store : Store) (rt : Runtime) (T : SignalTypeTable) (clock : nat -> Z)
          (signal : Signal) (rinfo : RemoteInfo).

Lemma handleSearchEvent_completed :
  signalType signal = SEARCH_COMPLETED T ->
  signalType signal <> SEARCH_STARTED T ->
  completes (handleSearchEvent store rt T clock signal rinfo)
    (fun es =>
       emit_names es = ["search_event"] /\
       exists op,
         operation_calls es = [op] /\
         operation_type op = JStr "search" /\
         outcome op = (if js_gt rt (field (payload signal) "results_count") 0
                       then success else partial) /\
         quality_score op
           = JNum (Math_min 1 (js_div rt (js_or (field (payload signal) "results_count")
                                                (JNum 0)) 10)) /\
         (truthy (field (payload signal) "search_id") = true ->
          operation_id op = field (payload signal) "search_id") /\
         (truthy (field (payload signal) "search_id") = false ->
          exists n, operation_id op = JStr ("search-" ++ dec_of_Z (clock n)))).
Proof.
  intros Hst Hne w. unfold handleSearchEvent.
  destruct (Z.eqb_spec (signalType signal) (SEARCH_STARTED T)) as [E | _]; [contradiction | ].
  destruct (Z.eqb_spec (signalType signal) (SEARCH_COMPLETED T)) as [_ | E]; [ | contradiction].
  rewrite !field_data by discriminate.
  exec.
  all: split; [reflexivity | ]; close_trace.
  all: split; [reflexivity | ]; eexists; split; [reflexivity | ]; simpl.
  all: repeat split; try reflexivity; try congruence; intros _; eauto.
Qed.
End Deriving.

(** C4 (as amended): a search-completed signal derives exactly one operation,
    of type [search]; its outcome is [success] when [results_count > 0] and
    [partial] otherwise; its quality score is [min(1, results_count / 10)], and
    0 when [results_count] is absent (or otherwise falsy); its id is the
    payload's [search_id] when that is present and truthy (a non-empty
    string), and the time-based fallback [search-<clock reading>] otherwise.
    In particular 25 results give score 1 and [success], and 0 results give
    [partial] and score 0. *)
Theorem route_search_completed
    (store : Store) (rt : Runtime) (T : SignalTypeTable) (clock : nat -> Z) (sid : string)
    (signal : Signal) (rinfo : RemoteInfo) (w : World store) :
  NoDup (switch_cases T) ->
  signalType signal = SEARCH_COMPLETED T ->
  let results_count := field (payload signal) "results_count" in
  let search_id := field (payload signal) "search_id" in
  exists op,
    operation_calls (effects_of (route store rt T clock sid signal rinfo) w) = [op] /\
    operation_type op = JStr "search" /\
    outcome op = (if js_gt rt results_count 0 then success else partial) /\
    (truthy results_count = true ->
     quality_score op = JNum (Math_min 1 (js_div rt results_count 10))) /\
    (truthy results_count = false -> quality_score op = JNum 0) /\
    (truthy search_id = true -> operation_id op = search_id) /\
    (truthy search_id = false ->
     exists n, operation_id op = JStr ("search-" ++ dec_of_Z (clock n))) /\
    (results_count = JNum 25 -> quality_score op = JNum 1 /\ outcome op = success) /\
    (results_count = JNum 0 -> quality_score op = JNum 0 /\ outcome op = partial).
Proof.
  intros Hnd Hst results_count search_id.
  destruct (dispatch_search_completed store rt T clock sid signal rinfo Hnd Hst) as [Hd Hne].
  destruct (route_with_handler store rt T clock sid signal rinfo _ _ Hd
              (handleSearchEvent_completed store rt T clock signal rinfo Hst Hne) w)
    as (_ & ts & es & (_ & op & Hop & Hty & Hout & Hq & Hid & Hfb) & _ & Hops & _).
  fold results_count in Hout, Hq. fold search_id in Hid, Hfb.
  exists op. rewrite Hops.
  split; [exact Hop | split; [exact Hty | split; [exact Hout | ]]].
  split; [intros Ht; rewrite Hq; unfold js_or; rewrite Ht; reflexivity | ].
  split; [intros Ht; rewrite Hq; unfold js_or; rewrite Ht; apply falsy_quality | ].
  split; [exact Hid | split; [exact Hfb | ]].
  split; intros Hrc; rewrite Hq, Hout, Hrc; vm_compute; split; reflexivity.
Qed.

Lemma route_search_completed_witness :
  let signal := sample_signal 0x21 [("search_id", JStr "s-17"); ("results_count", JNum 25)] in
  let results_count := field (payload signal) "results_count" in
  let search_id := field (payload signal) "search_id" in
  exists op,
    operation_calls
      (effects_of (route ideal_store sample_runtime sample_table sample_clock
                         "consciousness-mcp" signal sample_rinfo)
                  (initial_world ideal_store empty_db)) = [op] /\
    operation_type op = JStr "search" /\
    outcome op = (if js_gt sample_runtime results_count 0 then success else partial) /\
    (truthy results_count = true ->
     quality_score op = JNum (Math_min 1 (js_div sample_runtime results_count 10))) /\
    (truthy results_count = false -> quality_score op = JNum 0) /\
    (truthy search_id = true -> operation_id op = search_id) /\
    (truthy search_id = false ->
     exists n, operation_id op = JStr ("search-" ++ dec_of_Z (sample_clock n))) /\
    (results_count = JNum 25 -> quality_score op = JNum 1 /\ outcome op = success) /\
    (results_count = JNum 0 -> quality_score op = JNum 0 /\ outcome op = partial).
Proof.
  exact (route_search_completed ideal_store sample_runtime sample_table sample_clock
           "consciousness-mcp"
           (sample_signal 0x21 [("search_id", JStr "s-17"); ("results_count", JNum 25)])
           sample_rinfo (initial_world ideal_store empty_db) sample_table_distinct eq_refl).
Defined.

(** C4 (as stated) fails: a search-completed signal whose payload carries the
    (present, empty) [search_id] [""] derives an operation whose id is the
    time-based fallback, not the payload's [search_id]. *)
Lemma route_search_completed_empty_id :
  let signal := sample_signal (SEARCH_COMPLETED sample_table)
                              [("search_id", JStr ""); ("results_count", JNum 25)] in
  let es := effects_of (route ideal_store sample_runtime sample_table sample_clock
                              "consciousness-mcp" signal sample_rinfo)
                       (initial_world ideal_store empty_db) in
  payload signal !! "search_id" = Some (JStr "") /\
  map operation_id (operation_calls es) = [JStr "search-1700000000000"] /\
  map operation_id (operation_calls es) <> [JStr ""].
Proof. vm_compute. repeat split; try reflexivity. discriminate. Qed.

Section DerivingBuildAndVerify.
Variables (store : Store) (rt : Runtime) (T : SignalTypeTable) (clock : nat -> Z)
          (signal : Signal) (rinfo : RemoteInfo).

Lemma handleBuildEvent_completed :
  signalType signal = BUILD_COMPLETED T ->
  signalType signal <> BUILD_STARTED T ->
  completes (handleBuildEvent store rt T clock signal rinfo)
    (fun es =>
       emit_names es = ["build_event"] /\
       emitted "lesson_learned" es = [] /\
       exists op,
         operation_calls es = [op] /\
         operation_type op = JStr "build" /\
         outcome op = success /\
         quality_score op = JNum 0.9).
Proof.
  intros Hst Hne w. unfold handleBuildEvent.
  destruct (Z.eqb_spec (signalType signal) (BUILD_STARTED T)) as [E | _]; [contradiction | ].
  destruct (Z.eqb_spec (signalType signal) (BUILD_COMPLETED T)) as [_ | E]; [ | contradiction].
  exec.
  all: split; [reflexivity | ]; close_trace.
  all: split; [reflexivity | ]; split; [reflexivity | ].
  all: eexists; split; [reflexivity | ]; simpl.
  all: repeat split; reflexivity.
Qed.

Lemma handleBuildEvent_failed :
  signalType signal = BUILD_FAILED T ->
  signalType signal <> BUILD_STARTED T ->
  signalType signal <> BUILD_COMPLETED T ->
  completes (handleBuildEvent store rt T clock signal rinfo)
    (fun es =>
       emit_names es = ["lesson_learned"; "build_event"] /\
       emitted "lesson_learned" es
         = [obj [("type", JStr "build_failure"); ("server", sender_of signal);
                 ("data", JObj (data_of signal))]] /\
       exists op,
         operation_calls es = [op] /\
         operation_type op = JStr "build" /\
         outcome op = failure /\
         quality_score op = JNum 0.2).
Proof.
  intros Hst Hne Hne' w. unfold handleBuildEvent.
  destruct (Z.eqb_spec (signalType signal) (BUILD_STARTED T)) as [E | _]; [contradiction | ].
  destruct (Z.eqb_spec (signalType signal) (BUILD_COMPLETED T)) as [E | _]; [contradiction | ].
  destruct (Z.eqb_spec (signalType signal) (BUILD_FAILED T)) as [_ | E]; [ | contradiction].
  exec.
  all: split; [reflexivity | ]; close_trace.
  all: split; [reflexivity | ]; split; [reflexivity | ].
  all: eexists; split; [reflexivity | ]; simpl.
  all: repeat split; reflexivity.
Qed.

Lemma handleVerificationEvent_result :
  signalType signal = VERIFICATION_RESULT T ->
  completes (handleVerificationEvent store rt T clock signal rinfo)
    (fun es =>
       emit_names es = ["verification_event"] /\
       exists op,
         operation_calls es = [op] /\
         operation_type op = JStr "verify" /\
         outcome op = (if strict_eq_str (field (payload signal) "verdict") "SUPPORTED"
                       then success
                       else if strict_eq_str (field (payload signal) "verdict") "CONTRADICTED"
                            then failure else partial) /\
         quality_score op = js_or (field (payload signal) "confidence") (JNum 0.5)).
Proof.
  intros Hst w. unfold handleVerificationEvent.
  destruct (Z.eqb_spec (signalType signal) (VERIFICATION_RESULT T)) as [_ | E];
    [ | contradiction].
  rewrite !field_data by discriminate.
  unfold_router; simpl.
  repeat (match goal with
          | |- context [match insertOperation ?s ?o ?d with _ => _ end] =>
              destruct (insertOperation s o d) eqn:?
          | |- context [if truthy ?v then _ else _] => destruct (truthy v) eqn:?
          end; simpl).
  all: split; [reflexivity | ]; close_trace.
  all: split; [reflexivity | ]; eexists; split; [reflexivity | ]; simpl.
  all: repeat split; reflexivity.
Qed.
End DerivingBuildAndVerify.

(** C5: a build-completed or build-failed signal derives exactly one
    operation, of type [build], with outcome [success] and quality score 0.9
    for build-completed, and outcome [failure] and quality score 0.2 for
    build-failed; a build failure emits exactly one [lesson_learned]
    notification, tagged [build_failure], and a build success emits none. *)
Theorem route_build_outcome
    (store : Store) (rt : Runtime) (T : SignalTypeTable) (clock : nat -> Z) (sid : string)
    (signal : Signal) (rinfo : RemoteInfo) (w : World store) :
  NoDup (switch_cases T) ->
  signalType signal = BUILD_COMPLETED T \/ signalType signal = BUILD_FAILED T ->
  let es := effects_of (route store rt T clock sid signal rinfo) w in
  exists op,
    operation_calls es = [op] /\
    operation_type op = JStr "build" /\
    (signalType signal = BUILD_COMPLETED T ->
     outcome op = success /\ quality_score op = JNum 0.9 /\
     emitted "lesson_learned" es = []) /\
    (signalType signal = BUILD_FAILED T ->
     outcome op = failure /\ quality_score op = JNum 0.2 /\
     exists d, emitted "lesson_learned" es = [d] /\ d !! "type" = Some (JStr "build_failure")).
Proof.
  intros Hnd [Hst | Hst] es; subst es.
  - destruct (dispatch_build_completed store rt T clock sid signal rinfo Hnd Hst) as [Hd Hne].
    destruct (route_with_handler store rt T clock sid signal rinfo _ _ Hd
                (handleBuildEvent_completed store rt T clock signal rinfo Hst Hne) w)
      as (_ & ts & es & (_ & Hl & op & Hop & Hty & Hout & Hq) & _ & Hops & _ & Hem & _).
    exists op. rewrite Hops, Hem.
    split; [exact Hop | split; [exact Hty | split]].
    + intros _. split; [exact Hout | split; [exact Hq | exact Hl]].
    + intros Hst'. split_cases Hnd. congruence.
  - destruct (dispatch_build_failed store rt T clock sid signal rinfo Hnd Hst)
      as (Hd & Hne & Hne').
    destruct (route_with_handler store rt T clock sid signal rinfo _ _ Hd
                (handleBuildEvent_failed store rt T clock signal rinfo Hst Hne Hne') w)
      as (_ & ts & es & (_ & Hl & op & Hop & Hty & Hout & Hq) & _ & Hops & _ & Hem & _).
    exists op. rewrite Hops, Hem.
    split; [exact Hop | split; [exact Hty | split]].
    + intros Hst'. contradiction.
    + intros _. split; [exact Hout | split; [exact Hq | ]].
      eexists. split; [exact Hl | ]. vm_compute. reflexivity.
Qed.

Lemma route_build_outcome_witness :
  let signal := sample_signal 0x32 [("build_id", JStr "b-42"); ("error", JStr "tsc failed")] in
  let es := effects_of (route ideal_store sample_runtime sample_table sample_clock
                              "consciousness-mcp" signal sample_rinfo)
                       (initial_world ideal_store empty_db) in
  exists op,
    operation_calls es = [op] /\
    operation_type op = JStr "build" /\
    (signalType signal = BUILD_COMPLETED sample_table ->
     outcome op = success /\ quality_score op = JNum 0.9 /\
     emitted "lesson_learned" es = []) /\
    (signalType signal = BUILD_FAILED sample_table ->
     outcome op = failure /\ quality_score op = JNum 0.2 /\
     exists d, emitted "lesson_learned" es = [d] /\ d !! "type" = Some (JStr "build_failure")).
Proof.
  exact (route_build_outcome ideal_store sample_runtime sample_table sample_clock
           "consciousness-mcp"
           (sample_signal 0x32 [("build_id", JStr "b-42"); ("error", JStr "tsc failed")])
           sample_rinfo (initial_world ideal_store empty_db) sample_table_distinct
           (or_intror eq_refl)).
Defined.

Lemma strict_eq_str_true (v : JsValue) (s : string) :
  strict_eq_str v s = true <-> v = JStr s.
Proof.
  destruct v; simpl; split; try discriminate; unfold strict_eq_str.
  - intros H. apply String.eqb_eq in H. congruence.
  - intros [= ->]. apply String.eqb_refl.
Qed.

(** C6: a verification-result signal derives exactly one operation, of type
    [verify]; its outcome is [success] for the verdict ["SUPPORTED"],
    [failure] for ["CONTRADICTED"] and [partial] for anything else; its
    quality score is [confidence || 0.5]. In particular the verdict
    ["CONTRADICTED"] with confidence 0.8 gives [failure] and 0.8. *)
Theorem route_verification_result
    (store : Store) (rt : Runtime) (T : SignalTypeTable) (clock : nat -> Z) (sid : string)
    (signal : Signal) (rinfo : RemoteInfo) (w : World store) :
  NoDup (switch_cases T) ->
  signalType signal = VERIFICATION_RESULT T ->
  let verdict := field (payload signal) "verdict" in
  let confidence := field (payload signal) "confidence" in
  exists op,
    operation_calls (effects_of (route store rt T clock sid signal rinfo) w) = [op] /\
    operation_type op = JStr "verify" /\
    (verdict = JStr "SUPPORTED" -> outcome op = success) /\
    (verdict = JStr "CONTRADICTED" -> outcome op = failure) /\
    (verdict <> JStr "SUPPORTED" -> verdict <> JStr "CONTRADICTED" -> outcome op = partial) /\
    quality_score op = js_or confidence (JNum 0.5) /\
    (verdict = JStr "CONTRADICTED" -> confidence = JNum 0.8 ->
     outcome op = failure /\ quality_score op = JNum 0.8).
Proof.
  intros Hnd Hst verdict confidence.
  destruct (route_with_handler store rt T clock sid signal rinfo _ _
              (dispatch_verification_result store rt T clock sid signal rinfo Hnd Hst)
              (handleVerificationEvent_result store rt T clock signal rinfo Hst) w)
    as (_ & ts & es & (_ & op & Hop & Hty & Hout & Hq) & _ & Hops & _).
  fold verdict in Hout. fold confidence in Hq.
  exists op. rewrite Hops.
  split; [exact Hop | split; [exact Hty | ]].
  assert (Hsup : verdict = JStr "SUPPORTED" -> outcome op = success).
  { intros Hv. rewrite Hout, Hv. reflexivity. }
  assert (Hcon : verdict = JStr "CONTRADICTED" -> outcome op = failure).
  { intros Hv. rewrite Hout, Hv. reflexivity. }
  split; [exact Hsup | split; [exact Hcon | split; [ | split; [exact Hq | ]]]].
  - intros H1 H2. rewrite Hout.
    destruct (strict_eq_str verdict "SUPPORTED") eqn:E1;
      [apply strict_eq_str_true in E1; contradiction | ].
    destruct (strict_eq_str verdict "CONTRADICTED") eqn:E2;
      [apply strict_eq_str_true in E2; contradiction | reflexivity].
  - intros Hv Hc. split; [exact (Hcon Hv) | ]. rewrite Hq, Hc. vm_compute. reflexivity.
Qed.

Lemma route_verification_result_witness :
  let signal := sample_signal 0x41 [("verdict", JStr "CONTRADICTED"); ("confidence", JNum 0.8)] in
  let verdict := field (payload signal) "verdict" in
  let confidence := field (payload signal) "confidence" in
  exists op,
    operation_calls
      (effects_of (route ideal_store sample_runtime sample_table sample_clock
                         "consciousness-mcp" signal sample_rinfo)
                  (initial_world ideal_store empty_db)) = [op] /\
    operation_type op = JStr "verify" /\
    (verdict = JStr "SUPPORTED" -> outcome op = success) /\
    (verdict = JStr "CONTRADICTED" -> outcome op = failure) /\
    (verdict <> JStr "SUPPORTED" -> verdict <> JStr "CONTRADICTED" -> outcome op = partial) /\
    quality_score op = js_or confidence (JNum 0.5) /\
    (verdict = JStr "CONTRADICTED" -> confidence = JNum 0.8 ->
     outcome op = failure /\ quality_score op = JNum 0.8).
Proof.
  exact (route_verification_result ideal_store sample_runtime sample_table sample_clock
           "consciousness-mcp"
           (sample_signal 0x41 [("verdict", JStr "CONTRADICTED"); ("confidence", JNum 0.8)])
           sample_rinfo (initial_world ideal_store empty_db) sample_table_distinct eq_refl).
Defined.

(** C10: a verification-result signal whose payload carries [confidence = 0],
    like one whose payload carries no confidence, derives an operation whose
    quality score is the default 0.5, not 0. *)
Theorem route_verification_zero_confidence
    (store : Store) (rt : Runtime) (T : SignalTypeTable) (clock : nat -> Z) (sid : string)
    (signal : Signal) (rinfo : RemoteInfo) (w : World store) :
  NoDup (switch_cases T) ->
  signalType signal = VERIFICATION_RESULT T ->
  payload signal !! "confidence" = Some (JNum 0) \/ payload signal !! "confidence" = None ->
  exists op,
    operation_calls (effects_of (route store rt T clock sid signal rinfo) w) = [op] /\
    quality_score op = JNum 0.5.
Proof.
  intros Hnd Hst Hconf.
  destruct (route_with_handler store rt T clock sid signal rinfo _ _
              (dispatch_verification_result store rt T clock sid signal rinfo Hnd Hst)
              (handleVerificationEvent_result store rt T clock signal rinfo Hst) w)
    as (_ & ts & es & (_ & op & Hop & _ & _ & Hq) & _ & Hops & _).
  exists op. rewrite Hops. split; [exact Hop | ].
  rewrite Hq. unfold field. destruct Hconf as [-> | ->]; reflexivity.
Qed.

Lemma route_verification_zero_confidence_witness :
  let signal := sample_signal 0x41 [("verdict", JStr "SUPPORTED"); ("confidence", JNum 0)] in
  exists op,
    operation_calls
      (effects_of (route ideal_store sample_runtime sample_table sample_clock
                         "consciousness-mcp" signal sample_rinfo)
                  (initial_world ideal_store empty_db)) = [op] /\
    quality_score op = JNum 0.5.
Proof.
  apply (route_verification_zero_confidence ideal_store sample_runtime sample_table
           sample_clock "consciousness-mcp"
           (sample_signal 0x41 [("verdict", JStr "SUPPORTED"); ("confidence", JNum 0)])
           sample_rinfo (initial_world ideal_store empty_db) sample_table_distinct eq_refl).
  left. vm_compute. reflexivity.
Defined.

(** ** Retransmitted build completions *)

Lemma rows_with_id_none (id : JsValue) (rows : list Operation) :
  has_id id rows = false -> rows_with_id id rows = [].
Proof.
  unfold has_id, rows_with_id. induction rows as [ | r rows IH]; simpl; [reflexivity | ].
  intros H. apply orb_false_elim in H as [Hr Hrows]. rewrite Hr. auto.
Qed.

Lemma rows_with_id_some (id : JsValue) (rows : list Operation) :
  has_id id rows = true -> 1 <= length (rows_with_id id rows).
Proof.
  unfold has_id, rows_with_id. induction rows as [ | r rows IH]; simpl; [discriminate | ].
  destruct (same_id (operation_id r) id); simpl; [lia | exact IH].
Qed.

(** A truthy string or number is the same key as itself. *)
Lemma same_id_refl (id : JsValue) :
  truthy id = true ->
  (exists s, id = JStr s) \/ (exists x, id = JNum x) ->
  same_id id id = true.
Proof.
  intros Ht [[s ->] | [x ->]]; simpl.
  - apply String.eqb_refl.
  - unfold truthy, PrimFloat.is_nan in Ht.
    destruct (PrimFloat.eqb x x); [reflexivity | ].
    rewrite orb_true_r in Ht. discriminate.
Qed.

Section Retransmission.
Variables (store : Store) (rows : DB store -> list Operation) (rt : Runtime)
          (T : SignalTypeTable) (clock : nat -> Z) (sid : string)
          (signal : Signal) (rinfo : RemoteInfo) (id : JsValue).
Hypothesis unique : enforces_unique_ids store rows.
Hypothesis distinct : NoDup (switch_cases T).
Hypothesis completed : signalType signal = BUILD_COMPLETED T.
Hypothesis supplied :
  js_or (field (payload signal) "build_id") (field (payload signal) "server_name") = id.
Hypothesis usable : truthy id = true.

Lemma handleBuildEvent_completed_run (w1 : World store) :
  exists op w2 d,
    handleBuildEvent store rt T clock signal rinfo w1 = (Normal tt, w2) /\
    operation_id op = id /\
    trace w2 = (trace w1 ++ [CallInsertOperation op; Emit "build_event" d])%list /\
    ((has_id id (rows (db w1)) = false /\
      rows (db w2) = (rows (db w1) ++ [op])%list) \/
     (has_id id (rows (db w1)) = true /\ rows (db w2) = rows (db w1))).
Proof.
  destruct (dispatch_build_completed store rt T clock sid signal rinfo distinct completed)
    as [_ Hne].
  unfold handleBuildEvent.
  destruct (Z.eqb_spec (signalType signal) (BUILD_STARTED T)) as [E | _]; [contradiction | ].
  destruct (Z.eqb_spec (signalType signal) (BUILD_COMPLETED T)) as [_ | E]; [ | contradiction].
  rewrite !field_data by discriminate. rewrite supplied.
  unfold js_or_else. rewrite usable.
  unfold_router; simpl.
  destruct (truthy (JNum (js_mul rt (sig_timestamp signal) 1000))); simpl.
  all: match goal with
       | |- context [insertOperation ?s ?o ?d] =>
           set (op := o); destruct (insertOperation s op d) as [e | d'] eqn:Hins
       end; simpl.
  all: exists op; eexists; eexists; split; [reflexivity | ]; split; [reflexivity | ].
  all: split; [simpl; rewrite <- app_assoc; reflexivity | ]; simpl.
  all: destruct (has_id id (rows (db w1))) eqn:Hhas.
  all: try (destruct (duplicate_rejected _ _ unique op (db w1) Hhas) as [e' He'];
            congruence).
  all: try (destruct (fresh_accepted _ _ unique op (db w1) Hhas) as (d'' & Hd'' & Hrows'');
            try congruence).
  all: try (right; split; reflexivity).
  all: left; split; [reflexivity | ]; rewrite Hins in Hd''; injection Hd'' as ->; exact Hrows''.
Qed.

(** One routing of the signal: it does not throw, its operation has the id
    the payload supplies, and the row is appended exactly when no row has
    that id yet. *)
Lemma route_build_completed_once (w : World store) :
  let r := route store rt T clock sid signal rinfo w in
  raises r.1 = false /\
  exists op,
    operation_id op = id /\
    operation_calls (effects_of (route store rt T clock sid signal rinfo) w) = [op] /\
    ((has_id id (rows (db w)) = false /\ rows (db r.2) = (rows (db w) ++ [op])%list) \/
     (has_id id (rows (db w)) = true /\ rows (db r.2) = rows (db w))).
Proof.
  destruct (dispatch_build_completed store rt T clock sid signal rinfo distinct completed)
    as [Hd _].
  destruct (route_prologue store rt T clock sid signal rinfo w)
    as (w1 & line & ts & tail & Hr & Htr & Hdb).
  assert (Hrows : rows (db w1) = rows (db w)).
  { destruct Hdb as [[_ Hins] | (e & _ & ->)]; [ | reflexivity].
    exact (attention_keeps_rows _ _ unique _ _ _ Hins). }
  destruct (handleBuildEvent_completed_run w1) as (op & w2 & d & Hh & Hid & Htr2 & Hcase).
  rewrite Hd in Hr. rewrite Hh in Hr. cbv zeta. rewrite Hr. simpl.
  split; [reflexivity | ]. exists op. split; [exact Hid | ].
  rewrite <- Hrows. split; [ | exact Hcase].
  rewrite (effects_of_app _ w (ConsoleError line None
      :: CallInsertAttentionEvent (universal_event T signal rinfo ts)
      :: tail ++ [CallInsertOperation op; Emit "build_event" d])%list).
  - simpl. rewrite operation_calls_app.
    destruct Hdb as [[-> _] | (e & -> & _)]; reflexivity.
  - rewrite Hr. simpl. rewrite Htr2, Htr, <- app_assoc. reflexivity.
Qed.
End Retransmission.


Lemma ideal_store_unique : enforces_unique_ids ideal_store operation_rows.
Proof.
  split.
  - intros op d H. exists DuplicateKeyError. simpl. rewrite H. reflexivity.
  - intros op d H. eexists. simpl. rewrite H. split; reflexivity.
  - intros e d d' [= <-]. reflexivity.
Qed.



(** ** Store failures inside a family handler *)

(** C1 (the code at the failing input): against a store whose audit log
    rejects writes, routing a file-discovered signal catches the failure of
    the universal attention event, but the failure of the file handler's own
    attention event escapes: the call ends by a throw and the [file_event]
    notification is never emitted. *)
Theorem route_file_event_store_failure_escapes :
  let signal := sample_signal (FILE_DISCOVERED sample_table) [("path", JStr "/srv/notes.md")] in
  let m := route rejecting_store sample_runtime sample_table sample_clock "consciousness-mcp"
                 signal sample_rinfo in
  let w := initial_world rejecting_store empty_db in
  completion_of m w = Throw StorageError /\
  map event_type (attention_calls (effects_of m w)) = [ev_signal; ev_file] /\
  emit_names (effects_of m w) = [].
Proof. vm_compute. repeat split; reflexivity. Qed.

(** ** Where a routing call can throw *)

Section Throwing.
Variables (store : Store) (rt : Runtime) (T : SignalTypeTable) (clock : nat -> Z)
          (sid : string) (signal : Signal) (rinfo : RemoteInfo).

Ltac never_throws := intros w; exec; reflexivity.

Lemma handleHeartbeat_returns w : (handleHeartbeat store signal rinfo w).1 = Normal tt.
Proof. revert w. never_throws. Qed.

Lemma handleDockRequest_returns w :
  (handleDockRequest store T clock sid signal rinfo w).1 = Normal tt.
Proof. revert w. never_throws. Qed.

Lemma handleShutdown_returns w : (handleShutdown store rt signal rinfo w).1 = Normal tt.
Proof. revert w. never_throws. Qed.

Lemma handleSearchEvent_returns w :
  signalType signal <> SEARCH_STARTED T ->
  (handleSearchEvent store rt T clock signal rinfo w).1 = Normal tt.
Proof.
  intros Hne. unfold handleSearchEvent.
  destruct (Z.eqb_spec (signalType signal) (SEARCH_STARTED T)) as [E | _]; [contradiction | ].
  revert w. never_throws.
Qed.

Lemma handleBuildEvent_returns w :
  signalType signal <> BUILD_STARTED T ->
  (handleBuildEvent store rt T clock signal rinfo w).1 = Normal tt.
Proof.
  intros Hne. unfold handleBuildEvent.
  destruct (Z.eqb_spec (signalType signal) (BUILD_STARTED T)) as [E | _]; [contradiction | ].
  revert w. never_throws.
Qed.

Lemma handleVerificationEvent_returns w :
  (handleVerificationEvent store rt T clock signal rinfo w).1 = Normal tt.
Proof. revert w. never_throws. Qed.

Lemma handleValidationEvent_returns w :
  (handleValidationEvent store T signal rinfo w).1 = Normal tt.
Proof. revert w. never_throws. Qed.

Lemma handleError_returns w : (handleError store rt signal rinfo w).1 = Normal tt.
Proof. revert w. never_throws. Qed.

Lemma handleUnknownSignal_returns w :
  (handleUnknownSignal store rt signal rinfo w).1 = Normal tt.
Proof. revert w. never_throws. Qed.

Lemma dispatch_returns w :
  logs_family_event T (signalType signal) = false ->
  (dispatch store rt T clock sid signal rinfo w).1 = Normal tt.
Proof.
  unfold logs_family_event, family_logging_types. cbn [existsb].
  intros H. repeat (apply orb_false_elim in H as [? H]). clear H.
  repeat match goal with
         | H : (_ =? _)%Z = false |- _ => apply Z.eqb_neq in H
         end.
  unfold dispatch.
  repeat match goal with
         | |- context [Z.eqb ?a ?b] =>
             destruct (Z.eqb_spec a b); cbn [orb]; try contradiction
         end.
  all: first [ apply handleHeartbeat_returns | apply handleDockRequest_returns
             | apply handleShutdown_returns | apply handleSearchEvent_returns; assumption
             | apply handleBuildEvent_returns; assumption
             | apply handleVerificationEvent_returns | apply handleValidationEvent_returns
             | apply handleError_returns | apply handleUnknownSignal_returns ].
Qed.
End Throwing.

(** X1: a routing call can only throw from a family handler's own attention
    event: for every signal type whose handler logs none (every type outside
    [family_logging_types]), [route] returns normally whatever the store
    rejects. *)
Theorem route_returns_without_family_event
    (store : Store) (rt : Runtime) (T : SignalTypeTable) (clock : nat -> Z) (sid : string)
    (signal : Signal) (rinfo : RemoteInfo) (w : World store) :
  logs_family_event T (signalType signal) = false ->
  raises (completion_of (route store rt T clock sid signal rinfo) w) = false.
Proof.
  intros H.
  destruct (route_prologue store rt T clock sid signal rinfo w)
    as (w1 & line & ts & tail & Hr & _).
  unfold completion_of. rewrite Hr, (dispatch_returns store rt T clock sid signal rinfo w1 H).
  reflexivity.
Qed.

Lemma route_returns_without_family_event_witness :
  raises (completion_of
            (route rejecting_store sample_runtime sample_table sample_clock "consciousness-mcp"
                   (sample_signal 0x31 [("build_id", JStr "b-42")]) sample_rinfo)
            (initial_world rejecting_store empty_db)) = false.
Proof.
  exact (route_returns_without_family_event rejecting_store sample_runtime sample_table
           sample_clock "consciousness-mcp" (sample_signal 0x31 [("build_id", JStr "b-42")])
           sample_rinfo (initial_world rejecting_store empty_db) eq_refl).
Defined.

(** ** Every family at once *)

Section AllFamilies.
Variables (store : Store) (rt : Runtime) (T : SignalTypeTable) (clock : nat -> Z)
          (sid : string) (signal : Signal) (rinfo : RemoteInfo).

(** Whatever holds of each handler, for the signal types that can select it,
    holds of the [switch]. *)
Lemma dispatch_elim (Q : M store unit -> Prop) :
  (signalType signal = HEARTBEAT T -> Q (handleHeartbeat store signal rinfo)) ->
  (signalType signal = DOCK_REQUEST T -> Q (handleDockRequest store T clock sid signal rinfo)) ->
  (Q (handleShutdown store rt signal rinfo)) ->
  (Q (handleFileEvent store rt T clock signal rinfo)) ->
  (Q (handleSearchEvent store rt T clock signal rinfo)) ->
  (Q (handleBuildEvent store rt T clock signal rinfo)) ->
  (Q (handleVerificationEvent store rt T clock signal rinfo)) ->
  (Q (handleValidationEvent store T signal rinfo)) ->
  (Q (handleCoordinationEvent store rt T clock signal rinfo)) ->
  (signalType signal = ASTROSENTRY_EVENT T ->
   Q (handleAstrosentryEvent store rt clock signal rinfo)) ->
  (Q (handleError store rt signal rinfo)) ->
  (Q (handleUnknownSignal store rt signal rinfo)) ->
  Q (dispatch store rt T clock sid signal rinfo).
Proof.
  intros. unfold dispatch.
  repeat match goal with
         | |- context [Z.eqb ?a ?b] => destruct (Z.eqb_spec a b); cbn [orb]
         end; auto.
Qed.

Lemma route_grows (P : list Effect -> Prop) (w : World store) :
  grows (dispatch store rt T clock sid signal rinfo) P ->
  exists line ts tail es,
    effects_of (route store rt T clock sid signal rinfo) w
      = ConsoleError line None
          :: CallInsertAttentionEvent (universal_event T signal rinfo ts)
          :: (tail ++ es)%list /\
    (tail = [] \/
     exists e, tail = [ConsoleError "[Handlers] Failed to log attention event:" (Some e)]) /\
    P es.
Proof.
  intros Hg.
  destruct (route_effects store rt T clock sid signal rinfo w)
    as (w1 & line & ts & tail & Hr & Htail & Heff).
  destruct (Hg w1) as (es & Hes & HP).
  exists line, ts, tail, es. split; [exact (Heff es Hes) | split; assumption].
Qed.

Ltac by_exec_with tac := intros w; exec; close_trace; tac.

(** *** Operations *)

Lemma handlers_derive_at_most_one :
  grows (dispatch store rt T clock sid signal rinfo)
        (fun es => length (operation_calls es) <= 1).
Proof.
  apply dispatch_elim; intros; by_exec_with ltac:(idtac; simpl; lia).
Qed.

Lemma handlers_derive_nothing :
  signalType signal ∉ deriving_types T ->
  grows (dispatch store rt T clock sid signal rinfo) (fun es => operation_calls es = []).
Proof.
  intros H. unfold deriving_types in H.
  repeat (apply not_elem_of_cons in H as [? H]). clear H.
  apply dispatch_elim; intros; try contradiction.
  all: intros w; unfold_router; simpl.
  all: repeat match goal with
              | |- context [Z.eqb ?a ?b] =>
                  destruct (Z.eqb_spec a b); [try contradiction | ]; simpl
              end.
  all: repeat (branch; simpl); close_trace; reflexivity.
Qed.

(** *** Replies *)

Lemma handlers_reply_only_to_dock_requests :
  signalType signal <> DOCK_REQUEST T ->
  grows (dispatch store rt T clock sid signal rinfo) (fun es => responses es = []).
Proof.
  intros H. apply dispatch_elim; intros; try contradiction.
  all: by_exec_with ltac:(idtac; reflexivity).
Qed.

(** *** Throws *)

Hypothesis accepts : forall e d, exists d', insertAttentionEvent store e d = inr d'.

Lemma dispatch_returns_when_accepted (w : World store) :
  (dispatch store rt T clock sid signal rinfo w).1 = Normal tt.
Proof.
  revert w. apply dispatch_elim; intros; exec; try reflexivity.
  all: match goal with
       | H : insertAttentionEvent store ?e ?d = inl _ |- _ =>
           destruct (accepts e d) as [d' Hd']; congruence
       end.
Qed.
End AllFamilies.

(** ** Notifications *)

Section Notifications.
Variables (store : Store) (rt : Runtime) (T : SignalTypeTable) (clock : nat -> Z)
          (sid : string) (signal : Signal) (rinfo : RemoteInfo).

Lemma handlers_notify_known_names :
  grows (dispatch store rt T clock sid signal rinfo)
        (fun es => Forall (fun n => n ∈ notification_names) (emit_names es)).
Proof.
  apply dispatch_elim; intros; intros w; exec; close_trace.
  all: repeat constructor.
  all: apply (bool_decide_unpack _); vm_compute; exact I.
Qed.

Lemma dispatch_notifies :
  NoDup (switch_cases T) ->
  returns_with (dispatch store rt T clock sid signal rinfo)
               (fun es => emit_names es = expected_notifications T signal).
Proof.
  intros Hnd w. split_cases Hnd. unfold dispatch, expected_notifications. cbv zeta.
  repeat match goal with
         | |- context [Z.eqb ?a ?b] =>
             destruct (Z.eqb_spec a b); cbn [orb]; try (exfalso; congruence)
         end.
  all: unfold_router; simpl.
  all: repeat match goal with
              | |- context [Z.eqb ?a ?b] =>
                  destruct (Z.eqb_spec a b); cbn [orb]; try (exfalso; congruence); simpl
              end.
  all: repeat (branch; simpl); close_trace; try discriminate; intros _; reflexivity.
Qed.
End Notifications.

(** ** Family events *)

Section FamilyEvents.
Variables (store : Store) (rt : Runtime) (T : SignalTypeTable) (clock : nat -> Z)
          (sid : string) (signal : Signal) (rinfo : RemoteInfo).

Lemma route_grows_calls (P : list Effect -> Prop) (w : World store) :
  grows (dispatch store rt T clock sid signal rinfo) P ->
  exists ts es,
    P es /\
    attention_calls (effects_of (route store rt T clock sid signal rinfo) w)
      = universal_event T signal rinfo ts :: attention_calls es /\
    operation_calls (effects_of (route store rt T clock sid signal rinfo) w)
      = operation_calls es.
Proof.
  intros Hg.
  destruct (route_grows store rt T clock sid signal rinfo P w Hg)
    as (line & ts & tail & es & -> & Htail & HP).
  exists ts, es. split; [exact HP | ]. simpl.
  rewrite attention_calls_app, operation_calls_app.
  destruct Htail as [-> | (e & ->)]; split; reflexivity.
Qed.

Lemma dispatch_file_event :
  NoDup (switch_cases T) ->
  signalType signal ∈ [FILE_DISCOVERED T; FILE_INDEXED T; FILE_MODIFIED T; FILE_DELETED T] ->
  dispatch store rt T clock sid signal rinfo = handleFileEvent store rt T clock signal rinfo.
Proof.
  intros H Hst. split_cases H. unfold dispatch.
  repeat (apply elem_of_cons in Hst as [-> | Hst]);
    [ .. | apply elem_of_nil in Hst; contradiction ].
  all: decide_labels; reflexivity.
Qed.

Lemma dispatch_build_started :
  NoDup (switch_cases T) -> signalType signal = BUILD_STARTED T ->
  dispatch store rt T clock sid signal rinfo = handleBuildEvent store rt T clock signal rinfo /\
  signalType signal <> BUILD_COMPLETED T /\ signalType signal <> BUILD_FAILED T.
Proof.
  intros H Hst. split_cases H. unfold dispatch. rewrite Hst. decide_labels.
  split; [reflexivity | split; congruence].
Qed.

Lemma dispatch_astrosentry :
  NoDup (switch_cases T) -> signalType signal = ASTROSENTRY_EVENT T ->
  dispatch store rt T clock sid signal rinfo
    = handleAstrosentryEvent store rt clock signal rinfo.
Proof.
  intros H Hst. split_cases H. unfold dispatch. rewrite Hst. decide_labels. reflexivity.
Qed.

Lemma handleFileEvent_event :
  grows (handleFileEvent store rt T clock signal rinfo)
    (fun es => exists ev,
       attention_calls es = [ev] /\
       event_type ev = ev_file /\
       target ev = js_or (js_or (field (payload signal) "path")
                                (field (payload signal) "file")) (JStr "unknown") /\
       context ev = JObj (data_of signal)).
Proof.
  intros w. unfold handleFileEvent. rewrite !field_data by discriminate.
  exec; close_trace; eexists; repeat split; reflexivity.
Qed.

Lemma handleBuildEvent_started :
  signalType signal = BUILD_STARTED T ->
  signalType signal <> BUILD_COMPLETED T ->
  signalType signal <> BUILD_FAILED T ->
  grows (handleBuildEvent store rt T clock signal rinfo)
    (fun es => operation_calls es = [] /\
       exists ev,
         attention_calls es = [ev] /\
         event_type ev = ev_operation /\
         (truthy (js_or (field (payload signal) "build_id")
                        (field (payload signal) "server_name")) = true ->
          target ev = js_or (field (payload signal) "build_id")
                            (field (payload signal) "server_name")) /\
         context ev = JObj (data_of signal ∪ obj [("operation", JStr "build_started")])).
Proof.
  intros Hst Hc Hf w. unfold handleBuildEvent.
  destruct (Z.eqb_spec (signalType signal) (BUILD_STARTED T)) as [_ | E]; [ | contradiction].
  destruct (Z.eqb_spec (signalType signal) (BUILD_COMPLETED T)) as [E | _]; [contradiction | ].
  destruct (Z.eqb_spec (signalType signal) (BUILD_FAILED T)) as [E | _]; [contradiction | ].
  rewrite !field_data by discriminate.
  exec; close_trace; (split; [reflexivity | ]); eexists; repeat split;
    try reflexivity; intros; congruence.
Qed.

Lemma handleBuildEvent_finished_id :
  signalType signal <> BUILD_STARTED T ->
  signalType signal = BUILD_COMPLETED T \/ signalType signal = BUILD_FAILED T ->
  truthy (js_or (field (payload signal) "build_id")
                (field (payload signal) "server_name")) = true ->
  grows (handleBuildEvent store rt T clock signal rinfo)
    (fun es => map operation_id (operation_calls es)
               = [js_or (field (payload signal) "build_id")
                        (field (payload signal) "server_name")]).
Proof.
  intros Hs Hst Hid w. unfold handleBuildEvent.
  destruct (Z.eqb_spec (signalType signal) (BUILD_STARTED T)) as [E | _]; [contradiction | ].
  rewrite !field_data by discriminate.
  unfold js_or_else. rewrite Hid.
  assert (Hor : (signalType signal =? BUILD_COMPLETED T)%Z
                || (signalType signal =? BUILD_FAILED T)%Z = true).
  { destruct Hst as [-> | ->]; rewrite Z.eqb_refl; [reflexivity | apply orb_true_r]. }
  rewrite Hor.
  unfold_router; simpl.
  repeat (match goal with
          | |- context [match insertOperation ?s ?o ?d with _ => _ end] =>
              destruct (insertOperation s o d) eqn:?
          | |- context [if truthy ?v then _ else _] => destruct (truthy v) eqn:?
          | |- context [if Z.eqb ?a ?b then _ else _] => destruct (Z.eqb a b) eqn:?
          end; simpl).
  all: close_trace; reflexivity.
Qed.
End FamilyEvents.

(** X2: one routing call derives at most one operation, whatever the signal
    and whatever the store answers. *)
Theorem route_derives_at_most_one_operation
    (store : Store) (rt : Runtime) (T : SignalTypeTable) (clock : nat -> Z) (sid : string)
    (signal : Signal) (rinfo : RemoteInfo) (w : World store) :
  length (operation_calls (effects_of (route store rt T clock sid signal rinfo) w)) <= 1.
Proof.
  destruct (route_grows store rt T clock sid signal rinfo _ w
              (handlers_derive_at_most_one store rt T clock sid signal rinfo))
    as (line & ts & tail & es & -> & Htail & Hle).
  simpl. rewrite operation_calls_app.
  destruct Htail as [-> | (e & ->)]; exact Hle.
Qed.

(** X3: only search-completed, build-completed, build-failed,
    verification-result and astrosentry-event signals derive an operation: a
    signal of any other type, recognized or not, makes no [insertOperation]
    call. *)
Theorem route_derives_no_operation
    (store : Store) (rt : Runtime) (T : SignalTypeTable) (clock : nat -> Z) (sid : string)
    (signal : Signal) (rinfo : RemoteInfo) (w : World store) :
  signalType signal ∉ deriving_types T ->
  operation_calls (effects_of (route store rt T clock sid signal rinfo) w) = [].
Proof.
  intros H.
  destruct (route_grows store rt T clock sid signal rinfo _ w
              (handlers_derive_nothing store rt T clock sid signal rinfo H))
    as (line & ts & tail & es & -> & Htail & Hnone).
  simpl. rewrite operation_calls_app.
  destruct Htail as [-> | (e & ->)]; exact Hnone.
Qed.

Lemma sample_search_started_not_deriving : (0x20 : Z) ∉ deriving_types sample_table.
Proof. apply (bool_decide_unpack _). vm_compute. exact I. Qed.

Lemma route_derives_no_operation_witness :
  operation_calls
    (effects_of (route ideal_store sample_runtime sample_table sample_clock
                       "consciousness-mcp"
                       (sample_signal 0x20 [("query", JStr "router")]) sample_rinfo)
                (initial_world ideal_store empty_db)) = [].
Proof.
  exact (route_derives_no_operation ideal_store sample_runtime sample_table sample_clock
           "consciousness-mcp" (sample_signal 0x20 [("query", JStr "router")]) sample_rinfo
           (initial_world ideal_store empty_db) sample_search_started_not_deriving).
Defined.

(** X4: the router answers dock requests only: a signal of any other type
    makes no [sendResponse] call. *)
Theorem route_replies_only_to_dock_requests
    (store : Store) (rt : Runtime) (T : SignalTypeTable) (clock : nat -> Z) (sid : string)
    (signal : Signal) (rinfo : RemoteInfo) (w : World store) :
  signalType signal <> DOCK_REQUEST T ->
  responses (effects_of (route store rt T clock sid signal rinfo) w) = [].
Proof.
  intros H.
  destruct (route_grows store rt T clock sid signal rinfo _ w
              (handlers_reply_only_to_dock_requests store rt T clock sid signal rinfo H))
    as (line & ts & tail & es & -> & Htail & Hnone).
  simpl. unfold responses. rewrite flat_map_app. fold (responses es). rewrite Hnone.
  destruct Htail as [-> | (e & ->)]; reflexivity.
Qed.

Lemma route_replies_only_to_dock_requests_witness :
  responses
    (effects_of (route ideal_store sample_runtime sample_table sample_clock
                       "consciousness-mcp" (sample_signal 0x04 []) sample_rinfo)
                (initial_world ideal_store empty_db)) = [].
Proof.
  apply (route_replies_only_to_dock_requests ideal_store sample_runtime sample_table
           sample_clock "consciousness-mcp" (sample_signal 0x04 []) sample_rinfo
           (initial_world ideal_store empty_db)).
  discriminate.
Defined.

(** X5: when the store accepts every attention event, no routing call
    throws, whatever the signal and whatever [insertOperation] answers. *)
Theorem route_returns_when_audit_log_accepts
    (store : Store) (rt : Runtime) (T : SignalTypeTable) (clock : nat -> Z) (sid : string)
    (signal : Signal) (rinfo : RemoteInfo) (w : World store) :
  (forall e d, exists d', insertAttentionEvent store e d = inr d') ->
  raises (completion_of (route store rt T clock sid signal rinfo) w) = false.
Proof.
  intros Hacc.
  destruct (route_prologue store rt T clock sid signal rinfo w)
    as (w1 & line & ts & tail & Hr & _).
  unfold completion_of.
  rewrite Hr, (dispatch_returns_when_accepted store rt T clock sid signal rinfo Hacc w1).
  reflexivity.
Qed.

Lemma route_returns_when_audit_log_accepts_witness :
  raises (completion_of
            (route ideal_store sample_runtime sample_table sample_clock "consciousness-mcp"
                   (sample_signal 0xE0 [("outcome", JStr "failure")]) sample_rinfo)
            (initial_world ideal_store empty_db)) = false.
Proof.
  apply (route_returns_when_audit_log_accepts ideal_store sample_runtime sample_table
           sample_clock "consciousness-mcp"
           (sample_signal 0xE0 [("outcome", JStr "failure")]) sample_rinfo
           (initial_world ideal_store empty_db)).
  intros e d. eexists. reflexivity.
Defined.

(** X6: every notification of a routing call carries one of the thirteen
    names [server_heartbeat], [server_shutdown], [file_event], [search_event],
    [build_event], [lesson_learned], [verification_event], [validation_event],
    [pattern_candidate], [coordination_event], [astrosentry_event],
    [error_received] and [unknown_signal]. *)
Theorem route_notifies_known_names
    (store : Store) (rt : Runtime) (T : SignalTypeTable) (clock : nat -> Z) (sid : string)
    (signal : Signal) (rinfo : RemoteInfo) (w : World store) :
  Forall (fun n => n ∈ notification_names)
         (emit_names (effects_of (route store rt T clock sid signal rinfo) w)).
Proof.
  destruct (route_grows store rt T clock sid signal rinfo _ w
              (handlers_notify_known_names store rt T clock sid signal rinfo))
    as (line & ts & tail & es & -> & Htail & Hall).
  simpl. unfold emit_names. rewrite flat_map_app. fold (emit_names es).
  destruct Htail as [-> | (e & ->)]; exact Hall.
Qed.

(** X7: a routing call that returns has emitted exactly the notifications of
    its signal type, in this order: heartbeat [server_heartbeat]; dock-request
    none; undock and shutdown [server_shutdown]; the file events [file_event];
    the search events [search_event]; build-started and build-completed
    [build_event]; build-failed [lesson_learned] then [build_event]; the
    verification events [verification_event]; validation-approved
    [validation_event]; validation-rejected [validation_event] then
    [pattern_candidate]; the coordination events [coordination_event];
    astrosentry-event [astrosentry_event], followed by [pattern_candidate]
    when its outcome is ["failure"]; error [error_received] then
    [pattern_candidate]; any other type [unknown_signal]. *)
Theorem route_notifications_by_type
    (store : Store) (rt : Runtime) (T : SignalTypeTable) (clock : nat -> Z) (sid : string)
    (signal : Signal) (rinfo : RemoteInfo) (w : World store) :
  NoDup (switch_cases T) ->
  raises (completion_of (route store rt T clock sid signal rinfo) w) = false ->
  emit_names (effects_of (route store rt T clock sid signal rinfo) w)
    = expected_notifications T signal.
Proof.
  intros Hnd Hret.
  destruct (route_effects store rt T clock sid signal rinfo w)
    as (w1 & line & ts & tail & Hr & Htail & Heff).
  destruct (dispatch_notifies store rt T clock sid signal rinfo Hnd w1) as (es & Hes & Hn).
  rewrite (Heff es Hes). simpl. unfold emit_names. rewrite flat_map_app. fold (emit_names es).
  unfold completion_of in Hret. rewrite Hr in Hret.
  replace (flat_map _ tail) with (@nil string)
    by (destruct Htail as [-> | (e & ->)]; reflexivity).
  simpl. apply Hn.
  destruct (dispatch store rt T clock sid signal rinfo w1).1 as [[] | e];
    [reflexivity | discriminate].
Qed.

Lemma route_notifications_by_type_witness :
  emit_names
    (effects_of (route ideal_store sample_runtime sample_table sample_clock
                       "consciousness-mcp"
                       (sample_signal 0x51 [("reason", JStr "stale context")]) sample_rinfo)
                (initial_world ideal_store empty_db))
  = expected_notifications sample_table
      (sample_signal 0x51 [("reason", JStr "stale context")]).
Proof.
  exact (route_notifications_by_type ideal_store sample_runtime sample_table sample_clock
           "consciousness-mcp" (sample_signal 0x51 [("reason", JStr "stale context")])
           sample_rinfo (initial_world ideal_store empty_db) sample_table_distinct eq_refl).
Defined.

(** X8: a file-discovered, file-indexed, file-modified or file-deleted signal
    makes a second [insertAttentionEvent] call, for an event of type [file]
    whose context is the payload without its sender and whose target is the
    payload's [path], else its [file], else ["unknown"]; a payload that has
    neither field gets the target ["unknown"]. *)
Theorem route_file_event_target
    (store : Store) (rt : Runtime) (T : SignalTypeTable) (clock : nat -> Z) (sid : string)
    (signal : Signal) (rinfo : RemoteInfo) (w : World store) :
  NoDup (switch_cases T) ->
  signalType signal ∈ [FILE_DISCOVERED T; FILE_INDEXED T; FILE_MODIFIED T; FILE_DELETED T] ->
  exists ts ev,
    attention_calls (effects_of (route store rt T clock sid signal rinfo) w)
      = [universal_event T signal rinfo ts; ev] /\
    event_type ev = ev_file /\
    context ev = JObj (delete "sender" (payload signal)) /\
    target ev = js_or (js_or (field (payload signal) "path") (field (payload signal) "file"))
                      (JStr "unknown") /\
    (payload signal !! "path" = None -> payload signal !! "file" = None ->
     target ev = JStr "unknown").
Proof.
  intros Hnd Hst.
  pose proof (handleFileEvent_event store rt T clock signal rinfo) as Hg.
  rewrite <- (dispatch_file_event store rt T clock sid signal rinfo Hnd Hst) in Hg.
  destruct (route_grows_calls store rt T clock sid signal rinfo _ w Hg)
    as (ts & es & (ev & Hev & Hty & Htg & Hctx) & Hatt & _).
  exists ts, ev. rewrite Hatt, Hev.
  split; [reflexivity | split; [exact Hty | split; [exact Hctx | split; [exact Htg | ]]]].
  intros Hp Hf. rewrite Htg. unfold field. rewrite Hp, Hf. reflexivity.
Qed.

Lemma route_file_event_target_witness :
  let signal := sample_signal 0x12 [("size", JNum 512)] in
  exists ts ev,
    attention_calls
      (effects_of (route ideal_store sample_runtime sample_table sample_clock
                         "consciousness-mcp" signal sample_rinfo)
                  (initial_world ideal_store empty_db))
      = [universal_event sample_table signal sample_rinfo ts; ev] /\
    event_type ev = ev_file /\
    context ev = JObj (delete "sender" (payload signal)) /\
    target ev = js_or (js_or (field (payload signal) "path") (field (payload signal) "file"))
                      (JStr "unknown") /\
    (payload signal !! "path" = None -> payload signal !! "file" = None ->
     target ev = JStr "unknown").
Proof.
  apply (route_file_event_target ideal_store sample_runtime sample_table sample_clock
           "consciousness-mcp" (sample_signal 0x12 [("size", JNum 512)]) sample_rinfo
           (initial_world ideal_store empty_db) sample_table_distinct).
  apply (bool_decide_unpack _). vm_compute. exact I.
Defined.

(** X9: a build-started signal and a build-completed or build-failed signal
    with the same payload are correlated by the build id: when the payload
    carries a [build_id], or else a [server_name], that value is the target of
    the attention event logged for the start and the [operation_id] of the
    operation derived from the end. *)
Theorem route_build_start_and_end_share_id
    (store1 store2 : Store) (rt : Runtime) (T : SignalTypeTable) (clock : nat -> Z)
    (sid : string) (started ended : Signal) (rinfo : RemoteInfo)
    (w1 : World store1) (w2 : World store2) :
  NoDup (switch_cases T) ->
  signalType started = BUILD_STARTED T ->
  signalType ended = BUILD_COMPLETED T \/ signalType ended = BUILD_FAILED T ->
  payload started = payload ended ->
  let id := js_or (field (payload started) "build_id")
                  (field (payload started) "server_name") in
  truthy id = true ->
  (exists ts ev,
     attention_calls (effects_of (route store1 rt T clock sid started rinfo) w1)
       = [universal_event T started rinfo ts; ev] /\
     event_type ev = ev_operation /\ target ev = id) /\
  map operation_id (operation_calls (effects_of (route store2 rt T clock sid ended rinfo) w2))
    = [id].
Proof.
  intros Hnd Hs He Hp id Hid. split.
  - destruct (dispatch_build_started store1 rt T clock sid started rinfo Hnd Hs)
      as (Hd & Hc & Hf).
    pose proof (handleBuildEvent_started store1 rt T clock started rinfo Hs Hc Hf) as Hg.
    rewrite <- Hd in Hg.
    destruct (route_grows_calls store1 rt T clock sid started rinfo _ w1 Hg)
      as (ts & es & (_ & ev & Hev & Hty & Htg & _) & Hatt & _).
    exists ts, ev. rewrite Hatt, Hev. repeat split; [exact Hty | exact (Htg Hid)].
  - assert (Hns : signalType ended <> BUILD_STARTED T).
    { pose proof Hnd as Hnd'. split_cases Hnd'. destruct He; congruence. }
    assert (Hd : dispatch store2 rt T clock sid ended rinfo
                 = handleBuildEvent store2 rt T clock ended rinfo).
    { destruct He as [He | He];
        [apply (dispatch_build_completed store2 rt T clock sid ended rinfo Hnd He)
        | apply (dispatch_build_failed store2 rt T clock sid ended rinfo Hnd He)]. }
    subst id. rewrite Hp in Hid |- *.
    pose proof (handleBuildEvent_finished_id store2 rt T clock ended rinfo Hns He Hid) as Hg.
    rewrite <- Hd in Hg.
    destruct (route_grows_calls store2 rt T clock sid ended rinfo _ w2 Hg)
      as (ts & es & Hids & _ & Hops).
    rewrite Hops. exact Hids.
Qed.

Lemma route_build_start_and_end_share_id_witness :
  let started := sample_signal 0x30 [("server_name", JStr "looker-mcp")] in
  let ended := sample_signal 0x32 [("server_name", JStr "looker-mcp")] in
  (exists ts ev,
     attention_calls
       (effects_of (route ideal_store sample_runtime sample_table sample_clock
                          "consciousness-mcp" started sample_rinfo)
                   (initial_world ideal_store empty_db))
       = [universal_event sample_table started sample_rinfo ts; ev] /\
     event_type ev = ev_operation /\
     target ev = js_or (field (payload started) "build_id")
                       (field (payload started) "server_name")) /\
  map operation_id
      (operation_calls
         (effects_of (route ideal_store sample_runtime sample_table sample_clock
                            "consciousness-mcp" ended sample_rinfo)
                     (initial_world ideal_store empty_db)))
    = [js_or (field (payload started) "build_id") (field (payload started) "server_name")].
Proof.
  apply (route_build_start_and_end_share_id ideal_store ideal_store sample_runtime
           sample_table sample_clock "consciousness-mcp"
           (sample_signal 0x30 [("server_name", JStr "looker-mcp")])
           (sample_signal 0x32 [("server_name", JStr "looker-mcp")])
           sample_rinfo (initial_world ideal_store empty_db)
           (initial_world ideal_store empty_db) sample_table_distinct eq_refl
           (or_intror eq_refl)).
  - vm_compute. reflexivity.
  - vm_compute. reflexivity.
Defined.

(** X10: the context of the attention event logged for a build-started
    signal is the payload without its sender, with an [operation] field that
    is the payload's own [operation] when it has one and ["build_started"]
    otherwise: the payload's field wins over the handler's tag. *)
Theorem route_build_started_context
    (store : Store) (rt : Runtime) (T : SignalTypeTable) (clock : nat -> Z) (sid : string)
    (signal : Signal) (rinfo : RemoteInfo) (w : World store) :
  NoDup (switch_cases T) ->
  signalType signal = BUILD_STARTED T ->
  exists ts ev c,
    attention_calls (effects_of (route store rt T clock sid signal rinfo) w)
      = [universal_event T signal rinfo ts; ev] /\
    context ev = JObj c /\
    c !! "operation" = Some (default (JStr "build_started") (payload signal !! "operation")) /\
    (forall k, k <> "operation" -> k <> "sender" -> c !! k = payload signal !! k) /\
    c !! "sender" = None.
Proof.
  intros Hnd Hst.
  destruct (dispatch_build_started store rt T clock sid signal rinfo Hnd Hst)
    as (Hd & Hc & Hf).
  pose proof (handleBuildEvent_started store rt T clock signal rinfo Hst Hc Hf) as Hg.
  rewrite <- Hd in Hg.
  destruct (route_grows_calls store rt T clock sid signal rinfo _ w Hg)
    as (ts & es & (_ & ev & Hev & _ & _ & Hctx) & Hatt & _).
  exists ts, ev, (data_of signal ∪ obj [("operation", JStr "build_started")]).
  rewrite Hatt, Hev. split; [reflexivity | split; [exact Hctx | ]].
  unfold data_of, obj. simpl.
  split; [ | split].
  - rewrite lookup_union, lookup_delete_ne by discriminate.
    rewrite lookup_insert_eq. destruct (payload signal !! "operation"); reflexivity.
  - intros k Hk Hs. rewrite lookup_union, lookup_delete_ne by congruence.
    rewrite lookup_insert_ne by congruence. rewrite lookup_empty.
    destruct (payload signal !! k); reflexivity.
  - rewrite lookup_union, lookup_delete_eq. rewrite lookup_insert_ne by discriminate.
    reflexivity.
Qed.

Lemma route_build_started_context_witness :
  let signal := sample_signal 0x30 [("build_id", JStr "b-7"); ("operation", JStr "deploy")] in
  exists ts ev c,
    attention_calls
      (effects_of (route ideal_store sample_runtime sample_table sample_clock
                         "consciousness-mcp" signal sample_rinfo)
                  (initial_world ideal_store empty_db))
      = [universal_event sample_table signal sample_rinfo ts; ev] /\
    context ev = JObj c /\
    c !! "operation" = Some (default (JStr "build_started") (payload signal !! "operation")) /\
    (forall k, k <> "operation" -> k <> "sender" -> c !! k = payload signal !! k) /\
    c !! "sender" = None.
Proof.
  exact (route_build_started_context ideal_store sample_runtime sample_table sample_clock
           "consciousness-mcp"
           (sample_signal 0x30 [("build_id", JStr "b-7"); ("operation", JStr "deploy")])
           sample_rinfo (initial_world ideal_store empty_db) sample_table_distinct eq_refl).
Defined.

(** ** Astrosentry events and timestamps *)

Section AstrosentryAndTime.
Variables (store : Store) (rt : Runtime) (T : SignalTypeTable) (clock : nat -> Z)
          (sid : string) (signal : Signal) (rinfo : RemoteInfo).

Lemma handleAstrosentryEvent_operation :
  (forall e d, exists d', insertAttentionEvent store e d = inr d') ->
  grows (handleAstrosentryEvent store rt clock signal rinfo)
    (fun es =>
       (truthy (field (payload signal) "outcome") = false -> operation_calls es = []) /\
       (truthy (field (payload signal) "outcome") = true ->
        exists op,
          operation_calls es = [op] /\
          operation_type op = field (payload signal) "eventType" /\
          op_server_name op = js_or (field (payload signal) "serverId")
                                    (field (payload signal) "sender") /\
          input_summary op = field (payload signal) "operation" /\
          outcome op = (if strict_eq_str (field (payload signal) "outcome") "success"
                        then success
                        else if strict_eq_str (field (payload signal) "outcome") "failure"
                             then failure else partial) /\
          quality_score op
            = JNum (if strict_eq_str (field (payload signal) "outcome") "success"
                    then 1.0%float
                    else if strict_eq_str (field (payload signal) "outcome") "failure"
                         then 0.0%float else 0.5%float))).
Proof.
  intros Hacc w. unfold_router; simpl.
  repeat (match goal with
          | |- context [match insertAttentionEvent ?s ?e ?d with _ => _ end] =>
              let d' := fresh "d" in
              let Hd' := fresh "Hd" in
              destruct (Hacc e d) as [d' Hd']; rewrite Hd'
          | |- context [match insertOperation ?s ?o ?d with _ => _ end] =>
              destruct (insertOperation s o d) eqn:?
          | |- context [if truthy ?v then _ else _] => destruct (truthy v) eqn:?
          end; simpl).
  all: repeat match goal with
              | |- context [if strict_eq_str ?a "failure" then _ else _] =>
                  destruct (strict_eq_str a "failure") eqn:?; simpl
              end.
  all: close_trace; split; intros; try discriminate; try reflexivity.
  all: eexists; repeat split; try reflexivity.
  all: repeat match goal with
              | H : strict_eq_str _ _ = _ |- _ => rewrite H
              end; reflexivity.
Qed.

Hypothesis no_timestamp :
  truthy (JNum (js_mul rt (sig_timestamp signal) 1000)) = false.

Lemma route_prologue_clock (w : World store) :
  exists w1 line tail,
    route store rt T clock sid signal rinfo w
      = dispatch store rt T clock sid signal rinfo w1 /\
    trace w1 = (trace w ++ ConsoleError line None
                  :: CallInsertAttentionEvent
                       (universal_event T signal rinfo (num_of_Z (clock (ticks w))))
                  :: tail)%list /\
    attention_calls tail = [] /\ operation_calls tail = [].
Proof.
  unfold route, logAttentionEvent, timestamp_ms, db_insertAttentionEvent, console_error,
    perform, Date_now, try_catch, mbind, M_bind, mret, M_ret, universal_event.
  simpl. rewrite no_timestamp. simpl.
  match goal with
  | |- context [insertAttentionEvent ?s ?e ?d] => destruct (insertAttentionEvent s e d)
  end; simpl;
    eexists; eexists; eexists;
    (split; [reflexivity | split; [simpl; rewrite <- !app_assoc; reflexivity | ]]);
    split; reflexivity.
Qed.

Lemma handlers_stamp_with_clock :
  grows (dispatch store rt T clock sid signal rinfo)
    (fun es =>
       Forall (fun ev => exists n, ev_timestamp ev = num_of_Z (clock n)) (attention_calls es) /\
       Forall (fun op => exists n, op_timestamp op = num_of_Z (clock n)) (operation_calls es)).
Proof.
  apply dispatch_elim; intros; intros w; exec.
  all: try match goal with
           | H : truthy (JNum (js_mul _ _ _)) = true |- _ =>
               rewrite no_timestamp in H; discriminate
           end.
  all: close_trace; split; repeat constructor; eexists; reflexivity.
Qed.
End AstrosentryAndTime.

(** X11: against a store that accepts every attention event, an
    astrosentry-event signal derives an operation exactly when its payload
    carries a truthy [outcome]; the operation's type is the payload's
    [eventType], its server the payload's [serverId] or else its sender, its
    input summary the payload's [operation], and its outcome and quality score
    are [success] and 1 for the outcome ["success"], [failure] and 0 for
    ["failure"], and [partial] and 0.5 for any other outcome. *)
Theorem route_astrosentry_operation
    (store : Store) (rt : Runtime) (T : SignalTypeTable) (clock : nat -> Z) (sid : string)
    (signal : Signal) (rinfo : RemoteInfo) (w : World store) :
  NoDup (switch_cases T) ->
  signalType signal = ASTROSENTRY_EVENT T ->
  (forall e d, exists d', insertAttentionEvent store e d = inr d') ->
  let reported := field (payload signal) "outcome" in
  let ops := operation_calls (effects_of (route store rt T clock sid signal rinfo) w) in
  (truthy reported = false -> ops = []) /\
  (truthy reported = true ->
   exists op,
     ops = [op] /\
     operation_type op = field (payload signal) "eventType" /\
     op_server_name op = js_or (field (payload signal) "serverId")
                               (field (payload signal) "sender") /\
     input_summary op = field (payload signal) "operation" /\
     (reported = JStr "success" -> outcome op = success /\ quality_score op = JNum 1) /\
     (reported = JStr "failure" -> outcome op = failure /\ quality_score op = JNum 0) /\
     (reported <> JStr "success" -> reported <> JStr "failure" ->
      outcome op = partial /\ quality_score op = JNum 0.5)).
Proof.
  intros Hnd Hst Hacc reported ops.
  pose proof (handleAstrosentryEvent_operation store rt clock signal rinfo Hacc) as Hg.
  rewrite <- (dispatch_astrosentry store rt T clock sid signal rinfo Hnd Hst) in Hg.
  destruct (route_grows_calls store rt T clock sid signal rinfo _ w Hg)
    as (ts & es & (Hno & Hyes) & _ & Hops).
  subst ops. rewrite Hops. fold reported in Hno, Hyes.
  split; [exact Hno | ].
  intros Ht. destruct (Hyes Ht) as (op & Hop & Hty & Hsrv & Hin & Hout & Hq).
  exists op. split; [exact Hop | split; [exact Hty | split; [exact Hsrv | split; [exact Hin | ]]]].
  rewrite Hout, Hq. split; [ | split].
  - intros ->. split; reflexivity.
  - intros ->. split; reflexivity.
  - intros H1 H2.
    destruct (strict_eq_str reported "success") eqn:E1;
      [apply strict_eq_str_true in E1; contradiction | ].
    destruct (strict_eq_str reported "failure") eqn:E2;
      [apply strict_eq_str_true in E2; contradiction | ].
    split; reflexivity.
Qed.

Lemma route_astrosentry_operation_witness :
  let signal := sample_signal 0xE0 [("serverId", JStr "toolee"); ("eventType", JStr "deploy");
                                    ("operation", JStr "POST /deploy");
                                    ("outcome", JStr "timeout")] in
  let reported := field (payload signal) "outcome" in
  let ops :=
    operation_calls
      (effects_of (route ideal_store sample_runtime sample_table sample_clock
                         "consciousness-mcp" signal sample_rinfo)
                  (initial_world ideal_store empty_db)) in
  (truthy reported = false -> ops = []) /\
  (truthy reported = true ->
   exists op,
     ops = [op] /\
     operation_type op = field (payload signal) "eventType" /\
     op_server_name op = js_or (field (payload signal) "serverId")
                               (field (payload signal) "sender") /\
     input_summary op = field (payload signal) "operation" /\
     (reported = JStr "success" -> outcome op = success /\ quality_score op = JNum 1) /\
     (reported = JStr "failure" -> outcome op = failure /\ quality_score op = JNum 0) /\
     (reported <> JStr "success" -> reported <> JStr "failure" ->
      outcome op = partial /\ quality_score op = JNum 0.5)).
Proof.
  apply (route_astrosentry_operation ideal_store sample_runtime sample_table sample_clock
           "consciousness-mcp"
           (sample_signal 0xE0 [("serverId", JStr "toolee"); ("eventType", JStr "deploy");
                                ("operation", JStr "POST /deploy");
                                ("outcome", JStr "timeout")])
           sample_rinfo (initial_world ideal_store empty_db) sample_table_distinct eq_refl).
  intros e d. eexists. reflexivity.
Defined.

(** X12: a signal whose timestamp is missing, null or zero is stamped by the
    router's clock: the universal attention event carries the first clock
    reading of the call, and every other attention event and every operation
    of the call carries a clock reading as well. *)
Theorem route_stamps_with_clock
    (store : Store) (rt : Runtime) (T : SignalTypeTable) (clock : nat -> Z) (sid : string)
    (signal : Signal) (rinfo : RemoteInfo) (w : World store) :
  sig_timestamp signal = JUndefined \/ sig_timestamp signal = JNull
    \/ sig_timestamp signal = JNum 0 ->
  let es := effects_of (route store rt T clock sid signal rinfo) w in
  exists rest,
    attention_calls es
      = universal_event T signal rinfo (num_of_Z (clock (ticks w))) :: rest /\
    Forall (fun ev => exists n, ev_timestamp ev = num_of_Z (clock n)) rest /\
    Forall (fun op => exists n, op_timestamp op = num_of_Z (clock n)) (operation_calls es).
Proof.
  intros Hts es.
  assert (Hno : truthy (JNum (js_mul rt (sig_timestamp signal) 1000)) = false).
  { destruct Hts as [-> | [-> | ->]]; vm_compute; reflexivity. }
  destruct (route_prologue_clock store rt T clock sid signal rinfo Hno w)
    as (w1 & line & tail & Hr & Htr & Hta & Hto).
  destruct (handlers_stamp_with_clock store rt T clock sid signal rinfo Hno w1)
    as (es1 & Hes & Hat & Hop).
  assert (Heff : es = (ConsoleError line None
                         :: CallInsertAttentionEvent
                              (universal_event T signal rinfo (num_of_Z (clock (ticks w))))
                         :: tail ++ es1)%list).
  { subst es. apply effects_of_app. rewrite Hr, Hes, Htr, <- app_assoc. reflexivity. }
  rewrite Heff. simpl. rewrite attention_calls_app, operation_calls_app, Hta, Hto. simpl.
  exists (attention_calls es1). split; [reflexivity | split; assumption].
Qed.

Lemma route_stamps_with_clock_witness :
  let signal := {| signalType := 0x10; version := 0x0100; sig_timestamp := JNum 0;
                   payload := obj [("sender", JStr "snapshot"); ("path", JStr "/a")] |} in
  let w := initial_world ideal_store empty_db in
  let es := effects_of (route ideal_store sample_runtime sample_table sample_clock
                              "consciousness-mcp" signal sample_rinfo) w in
  exists rest,
    attention_calls es
      = universal_event sample_table signal sample_rinfo (num_of_Z (sample_clock (ticks w)))
          :: rest /\
    Forall (fun ev => exists n, ev_timestamp ev = num_of_Z (sample_clock n)) rest /\
    Forall (fun op => exists n, op_timestamp op = num_of_Z (sample_clock n))
           (operation_calls es).
Proof.
  exact (route_stamps_with_clock ideal_store sample_runtime sample_table sample_clock
           "consciousness-mcp"
           {| signalType := 0x10; version := 0x0100; sig_timestamp := JNum 0;
              payload := obj [("sender", JStr "snapshot"); ("path", JStr "/a")] |}
           sample_rinfo (initial_world ideal_store empty_db)
           (or_intror (or_intror eq_refl))).
Defined.

(** ** Rate limiting *)

Section RateLimiting.
Import Http.
Local Open Scope Z_scope.
Variables (opts : Options).

(** A request in the window of the entry the map holds for its client. *)
Lemma rateLimit_counts (now : Z) (req : Request) (res : Response)
    (store : gmap string RateLimitEntry) (e : RateLimitEntry) :
  skips opts req = false ->
  store !! client_of req = Some e ->
  now <= resetTime e ->
  (rateLimit opts now req res store).1.1
    = <[client_of req := {| count := count e + 1; resetTime := resetTime e |}]> store /\
  (rateLimit opts now req res store).2 = (count e + 1 <=? limit opts).
Proof.
  intros Hs He Hw. unfold rateLimit. rewrite Hs, He.
  destruct (Z.gtb_spec now (resetTime e)) as [Hgt | _]; [lia | ]. simpl.
  destruct (Z.gtb_spec (count e + 1) (limit opts)) as [Hgt | Hle]; simpl;
    (split; [reflexivity | ]); symmetry;
    [apply Z.leb_gt | apply Z.leb_le]; lia.
Qed.

(** A request of a client the map holds no entry for, or an expired one. *)
Lemma rateLimit_opens (now : Z) (req : Request) (res : Response)
    (store : gmap string RateLimitEntry) :
  skips opts req = false ->
  (store !! client_of req = None \/
   exists e, store !! client_of req = Some e /\ resetTime e < now) ->
  (rateLimit opts now req res store).1.1
    = <[client_of req := {| count := 1; resetTime := now + window opts |}]> store /\
  (rateLimit opts now req res store).2 = (1 <=? limit opts).
Proof.
  intros Hs He. unfold rateLimit. rewrite Hs.
  assert (Hentry : match store !! client_of req with
                   | Some e => if now >? resetTime e
                               then {| count := 0; resetTime := now + window opts |} else e
                   | None => {| count := 0; resetTime := now + window opts |}
                   end = {| count := 0; resetTime := now + window opts |}).
  { destruct He as [-> | (e & -> & Hlt)]; [reflexivity | ].
    destruct (Z.gtb_spec now (resetTime e)); [reflexivity | lia]. }
  rewrite Hentry. simpl. change (0 + 1) with 1.
  destruct (Z.gtb_spec 1 (limit opts)) as [Hgt | Hle]; simpl;
    (split; [reflexivity | ]); symmetry;
    [apply Z.leb_gt | apply Z.leb_le]; lia.
Qed.

Lemma serve_in_window (k : string) (arrivals : list (Z * Request)) :
  forall (store : gmap string RateLimitEntry) (c r : Z),
    store !! k = Some {| count := c; resetTime := r |} ->
    Forall (fun a => skips opts a.2 = false /\ client_of a.2 = k /\ a.1 <= r) arrivals ->
    map snd (serve opts arrivals store).1
      = map (fun i => c + Z.of_nat i <=? limit opts) (seq 1 (length arrivals)) /\
    (serve opts arrivals store).2 !! k
      = Some {| count := c + Z.of_nat (length arrivals); resetTime := r |}.
Proof.
  induction arrivals as [ | [now req] rest IH]; intros store c r Hk Hall.
  - simpl. split; [reflexivity | ]. rewrite Z.add_0_r. exact Hk.
  - apply Forall_cons in Hall as [(Hs & Hc & Hw) Hrest]. simpl in Hs, Hc, Hw.
    subst k.
    destruct (rateLimit_counts now req new_response store _ Hs Hk Hw) as [Hst Hp].
    simpl in Hst, Hp.
    cbn [serve].
    destruct (rateLimit opts now req new_response store) as [[store' res] passed].
    simpl in Hst, Hp. subst store' passed.
    specialize (IH (<[client_of req := {| count := c + 1; resetTime := r |}]> store)
                   (c + 1) r (lookup_insert_eq _ _ _) Hrest).
    destruct (serve opts rest _) as [served final]. simpl in IH |- *.
    destruct IH as [IHp IHf]. split.
    + f_equal. rewrite IHp, <- (seq_shift (length rest) 1), map_map.
      apply map_ext. intros i. f_equal. lia.
    + rewrite IHf. f_equal. f_equal. lia.
Qed.
End RateLimiting.

(** X13: requests of one client that arrive within one window are passed
    on until the limit is reached and refused from then on: when the first
    of them opens the window (the map holds no entry for the client, or an
    expired one) and the others arrive no later than the end of that window,
    the i-th request is passed on exactly when i is at most [maxRequests],
    and the client's entry ends up counting all of them. *)
Theorem rate_limit_window
    (opts : Http.Options) (k : string) (t0 : Z) (first : Http.Request)
    (rest : list (Z * Http.Request)) (store : gmap string Http.RateLimitEntry) :
  (store !! k = None \/ exists e, store !! k = Some e /\ (Http.resetTime e < t0)%Z) ->
  Forall (fun a => Http.skips opts a.2 = false /\ Http.client_of a.2 = k)
         ((t0, first) :: rest) ->
  Forall (fun a => (a.1 <= t0 + Http.window opts)%Z) rest ->
  let arrivals := (t0, first) :: rest in
  map snd (Http.serve opts arrivals store).1
    = map (fun i => (Z.of_nat i <=? Http.limit opts)%Z) (seq 1 (length arrivals)) /\
  (Http.serve opts arrivals store).2 !! k
    = Some {| Http.count := Z.of_nat (length arrivals);
              Http.resetTime := (t0 + Http.window opts)%Z |}.
Proof.
  intros Hopen Hall Htimes arrivals. subst arrivals.
  apply Forall_cons in Hall as [[Hs Hc] Hrest]. simpl in Hs, Hc. subst k.
  destruct (rateLimit_opens opts t0 first Http.new_response store Hs Hopen) as [Hst Hp].
  cbn [Http.serve].
  destruct (Http.rateLimit opts t0 first Http.new_response store) as [[store' res] passed].
  simpl in Hst, Hp. subst store' passed.
  assert (Hin : Forall (fun a => Http.skips opts a.2 = false
                                 /\ Http.client_of a.2 = Http.client_of first
                                 /\ (a.1 <= t0 + Http.window opts)%Z) rest).
  { rewrite Forall_forall in *. intros a Ha.
    destruct (Hrest a Ha). pose proof (Htimes a Ha). auto. }
  destruct (serve_in_window opts (Http.client_of first) rest
              (<[Http.client_of first := {| Http.count := 1;
                                            Http.resetTime := (t0 + Http.window opts)%Z |}]>
                 store)
              1%Z _ (lookup_insert_eq _ _ _) Hin) as [Hp Hf].
  destruct (Http.serve opts rest _) as [served final]. simpl in Hp, Hf |- *.
  split.
  - f_equal. rewrite Hp, <- (seq_shift (length rest) 1), map_map.
    apply map_ext. intros i. f_equal. lia.
  - rewrite Hf. f_equal. f_equal. lia.
Qed.

Lemma rate_limit_window_witness :
  let arrivals := [(1000, Http.sample_request "/mcp" "10.0.0.7");
                   (2000, Http.sample_request "/mcp" "10.0.0.7");
                   (61000, Http.sample_request "/tools" "10.0.0.7")]%Z in
  map snd (Http.serve Http.sample_options arrivals ∅).1
    = map (fun i => (Z.of_nat i <=? Http.limit Http.sample_options)%Z)
          (seq 1 (length arrivals)) /\
  (Http.serve Http.sample_options arrivals ∅).2 !! "10.0.0.7"
    = Some {| Http.count := Z.of_nat (length arrivals);
              Http.resetTime := (1000 + Http.window Http.sample_options)%Z |}.
Proof.
  apply (rate_limit_window Http.sample_options "10.0.0.7" 1000%Z
           (Http.sample_request "/mcp" "10.0.0.7")
           [(2000, Http.sample_request "/mcp" "10.0.0.7");
            (61000, Http.sample_request "/tools" "10.0.0.7")]%Z ∅).
  - left. reflexivity.
  - repeat constructor.
  - repeat constructor; simpl; lia.
Defined.

Lemma ceil_seconds_bounds (a : Z) :
  (a <= 1000 * Http.ceil_seconds a < a + 1000)%Z.
Proof.
  unfold Http.ceil_seconds.
  pose proof (Z.div_mod (- a) 1000 ltac:(lia)).
  pose proof (Z.mod_pos_bound (- a) 1000 ltac:(lia)). lia.
Qed.

(** X14: a refused request is answered 429 with a [Retry-After] header that
    equals the body's [retryAfter]: the time left until the client's window
    ends, rounded up to whole seconds, and never negative when the window
    length is not. *)
Theorem rate_limit_refusal
    (opts : Http.Options) (now : Z) (req : Http.Request) (res : Http.Response)
    (store : gmap string Http.RateLimitEntry) :
  (0 <= Http.window opts)%Z ->
  (Http.rateLimit opts now req res store).2 = false ->
  let res' := (Http.rateLimit opts now req res store).1.2 in
  exists e retryAfter message,
    (Http.rateLimit opts now req res store).1.1 !! Http.client_of req = Some e /\
    (Http.limit opts < Http.count e)%Z /\
    (0 <= Http.resetTime e - now <= 1000 * retryAfter)%Z /\
    (1000 * retryAfter < Http.resetTime e - now + 1000)%Z /\
    Http.statusCode res' = 429%Z /\
    Http.sent_headers res' !! "Retry-After" = Some (Http.HNum retryAfter) /\
    Http.body res' = Some (Http.TooManyRequests "Too Many Requests" message retryAfter true).
Proof.
  intros Hw. unfold Http.rateLimit.
  destruct (Http.skips opts req); [discriminate | ].
  set (entry := match store !! Http.client_of req with
                | Some e => if (now >? Http.resetTime e)%Z
                            then {| Http.count := 0;
                                    Http.resetTime := (now + Http.window opts)%Z |}
                            else e
                | None => {| Http.count := 0; Http.resetTime := (now + Http.window opts)%Z |}
                end).
  assert (Hin : (now <= Http.resetTime entry)%Z).
  { subst entry. destruct (store !! Http.client_of req) as [e | ]; simpl; [ | lia].
    destruct (Z.gtb_spec now (Http.resetTime e)); simpl; lia. }
  simpl. destruct (Z.gtb_spec (Http.count entry + 1) (Http.limit opts)) as [Hgt | Hle];
    simpl; [intros _ | discriminate].
  pose proof (ceil_seconds_bounds (Http.resetTime entry - now)).
  eexists. exists (Http.ceil_seconds (Http.resetTime entry - now)). eexists.
  split; [apply lookup_insert_eq | ]. simpl.
  split; [lia | split; [lia | split; [lia | split; [reflexivity | ]]]].
  split; [apply lookup_insert_eq | reflexivity].
Qed.

Lemma rate_limit_refusal_witness :
  let store : gmap string Http.RateLimitEntry :=
    {[ "10.0.0.7" := {| Http.count := 2; Http.resetTime := 61000 |} ]} in
  let req := Http.sample_request "/mcp" "10.0.0.7" in
  let res' := (Http.rateLimit Http.sample_options 3500 req Http.new_response store).1.2 in
  exists e retryAfter message,
    (Http.rateLimit Http.sample_options 3500 req Http.new_response store).1.1
      !! Http.client_of req = Some e /\
    (Http.limit Http.sample_options < Http.count e)%Z /\
    (0 <= Http.resetTime e - 3500 <= 1000 * retryAfter)%Z /\
    (1000 * retryAfter < Http.resetTime e - 3500 + 1000)%Z /\
    Http.statusCode res' = 429%Z /\
    Http.sent_headers res' !! "Retry-After" = Some (Http.HNum retryAfter) /\
    Http.body res' = Some (Http.TooManyRequests "Too Many Requests" message retryAfter true).
Proof.
  apply (rate_limit_refusal Http.sample_options 3500%Z (Http.sample_request "/mcp" "10.0.0.7")
           Http.new_response
           {[ "10.0.0.7" := {| Http.count := 2; Http.resetTime := 61000 |} ]}).
  - simpl. lia.
  - vm_compute. reflexivity.
Defined.

(** X15: the rate limit headers of a request that is not skipped describe
    the client's entry as the request leaves it: [X-RateLimit-Limit] is
    [maxRequests], [X-RateLimit-Remaining] is what is left of it after the
    entry's count and never negative, [X-RateLimit-Reset] is the end of the
    window in whole seconds, and the request is passed on exactly when the
    count does not exceed [maxRequests]. *)
Theorem rate_limit_headers
    (opts : Http.Options) (now : Z) (req : Http.Request) (res : Http.Response)
    (store : gmap string Http.RateLimitEntry) :
  Http.skips opts req = false ->
  let out := Http.rateLimit opts now req res store in
  exists e,
    out.1.1 !! Http.client_of req = Some e /\
    Http.sent_headers out.1.2 !! "X-RateLimit-Limit" = Some (Http.HNum (Http.limit opts)) /\
    Http.sent_headers out.1.2 !! "X-RateLimit-Remaining"
      = Some (Http.HNum (Z.max 0 (Http.limit opts - Http.count e))) /\
    Http.sent_headers out.1.2 !! "X-RateLimit-Reset"
      = Some (Http.HNum (Http.ceil_seconds (Http.resetTime e))) /\
    out.2 = (Http.count e <=? Http.limit opts)%Z.
Proof.
  intros Hs. unfold Http.rateLimit. rewrite Hs.
  set (entry := match store !! Http.client_of req with
                | Some e => _
                | None => _
                end).
  cbv zeta. simpl.
  destruct (Z.gtb_spec (Http.count entry + 1) (Http.limit opts)) as [Hgt | Hle]; simpl.
  all: eexists; split; [apply lookup_insert_eq | ]; simpl.
  all: repeat split.
  all: repeat (rewrite lookup_insert_ne by discriminate); rewrite ?lookup_insert_eq;
    try reflexivity.
  all: symmetry; first [apply Z.leb_gt; lia | apply Z.leb_le; lia].
Qed.

Lemma rate_limit_headers_witness :
  let out := Http.rateLimit Http.sample_options 1000 (Http.sample_request "/mcp" "10.0.0.7")
                            Http.new_response ∅ in
  exists e,
    out.1.1 !! Http.client_of (Http.sample_request "/mcp" "10.0.0.7") = Some e /\
    Http.sent_headers out.1.2 !! "X-RateLimit-Limit"
      = Some (Http.HNum (Http.limit Http.sample_options)) /\
    Http.sent_headers out.1.2 !! "X-RateLimit-Remaining"
      = Some (Http.HNum (Z.max 0 (Http.limit Http.sample_options - Http.count e))) /\
    Http.sent_headers out.1.2 !! "X-RateLimit-Reset"
      = Some (Http.HNum (Http.ceil_seconds (Http.resetTime e))) /\
    out.2 = (Http.count e <=? Http.limit Http.sample_options)%Z.
Proof.
  exact (rate_limit_headers Http.sample_options 1000%Z
           (Http.sample_request "/mcp" "10.0.0.7") Http.new_response ∅ eq_refl).
Defined.

(** X16: a request changes no entry but its own client's: the entry of every
    other client is what it was, and a skipped request changes nothing at
    all. *)
Theorem rate_limit_isolation
    (opts : Http.Options) (now : Z) (req : Http.Request) (res : Http.Response)
    (store : gmap string Http.RateLimitEntry) (other : string) :
  other <> Http.client_of req ->
  (Http.rateLimit opts now req res store).1.1 !! other = store !! other /\
  (Http.skips opts req = true -> (Http.rateLimit opts now req res store).1.1 = store).
Proof.
  intros Hne. unfold Http.rateLimit.
  destruct (Http.skips opts req); [split; reflexivity | ].
  split; [ | discriminate]. cbv zeta.
  destruct (_ >? Http.limit opts)%Z; simpl; apply lookup_insert_ne; congruence.
Qed.

Lemma rate_limit_isolation_witness :
  let store : gmap string Http.RateLimitEntry :=
    {[ "10.0.0.9" := {| Http.count := 2; Http.resetTime := 61000 |} ]} in
  let req := Http.sample_request "/mcp" "10.0.0.7" in
  (Http.rateLimit Http.sample_options 3500 req Http.new_response store).1.1 !! "10.0.0.9"
    = store !! "10.0.0.9" /\
  (Http.skips Http.sample_options req = true ->
   (Http.rateLimit Http.sample_options 3500 req Http.new_response store).1.1 = store).
Proof.
  apply (rate_limit_isolation Http.sample_options 3500%Z
           (Http.sample_request "/mcp" "10.0.0.7") Http.new_response
           {[ "10.0.0.9" := {| Http.count := 2; Http.resetTime := 61000 |} ]} "10.0.0.9").
  discriminate.
Defined.

(** X17: an expired entry is as good as none: when the clock is past the end
    of the client's window, the middleware leaves the same map, writes the
    same response and takes the same decision as if the entry had been
    deleted first; in particular a client that was refused is counted from
    one again. *)
Theorem rate_limit_expired_entry
    (opts : Http.Options) (now : Z) (req : Http.Request) (res : Http.Response)
    (store : gmap string Http.RateLimitEntry) (e : Http.RateLimitEntry) :
  Http.skips opts req = false ->
  store !! Http.client_of req = Some e ->
  (Http.resetTime e < now)%Z ->
  Http.rateLimit opts now req res store
    = Http.rateLimit opts now req res (delete (Http.client_of req) store) /\
  (Http.rateLimit opts now req res store).1.1 !! Http.client_of req
    = Some {| Http.count := 1; Http.resetTime := (now + Http.window opts)%Z |}.
Proof.
  intros Hs He Hlt. unfold Http.rateLimit. rewrite Hs, He, lookup_delete_eq.
  destruct (Z.gtb_spec now (Http.resetTime e)) as [_ | Hle]; [ | lia].
  cbv zeta. rewrite insert_delete_eq. split; [reflexivity | ].
  simpl. destruct (_ >? Http.limit opts)%Z; simpl; apply lookup_insert_eq.
Qed.

Lemma rate_limit_expired_entry_witness :
  let store : gmap string Http.RateLimitEntry :=
    {[ "10.0.0.7" := {| Http.count := 9; Http.resetTime := 61000 |} ]} in
  let req := Http.sample_request "/mcp" "10.0.0.7" in
  Http.rateLimit Http.sample_options 61001 req Http.new_response store
    = Http.rateLimit Http.sample_options 61001 req Http.new_response
                     (delete (Http.client_of req) store) /\
  (Http.rateLimit Http.sample_options 61001 req Http.new_response store).1.1
    !! Http.client_of req
    = Some {| Http.count := 1;
              Http.resetTime := (61001 + Http.window Http.sample_options)%Z |}.
Proof.
  apply (rate_limit_expired_entry Http.sample_options 61001%Z
           (Http.sample_request "/mcp" "10.0.0.7") Http.new_response
           {[ "10.0.0.7" := {| Http.count := 9; Http.resetTime := 61000 |} ]}
           {| Http.count := 9; Http.resetTime := 61000 |}).
  - reflexivity.
  - reflexivity.
  - simpl. lia.
Defined.

Lemma cleanup_lookup (at_ : Z) (store : gmap string Http.RateLimitEntry) (k : string) :
  Http.cleanup at_ store !! k
  = match store !! k with
    | Some e => if (at_ >? Http.resetTime e)%Z then None else Some e
    | None => None
    end.
Proof.
  unfold Http.cleanup. destruct (store !! k) as [e | ] eqn:Hk.
  - destruct (Z.gtb_spec at_ (Http.resetTime e)) as [Hgt | Hle].
    + apply map_lookup_filter_None. right. intros e' He'. simpl.
      rewrite Hk in He'. injection He' as <-. lia.
    + apply map_lookup_filter_Some. split; [exact Hk | simpl; lia].
  - apply map_lookup_filter_None. left. exact Hk.
Qed.

(** X18: the periodic cleanup is not observable through the middleware: a
    request that arrives no earlier than a cleanup gets the same response and
    the same decision as if the cleanup had not run, and leaves the same
    entry for its client. *)
Theorem rate_limit_cleanup_transparent
    (opts : Http.Options) (cleaned now : Z) (req : Http.Request) (res : Http.Response)
    (store : gmap string Http.RateLimitEntry) :
  (cleaned <= now)%Z ->
  let kept := Http.rateLimit opts now req res store in
  let swept := Http.rateLimit opts now req res (Http.cleanup cleaned store) in
  swept.1.2 = kept.1.2 /\ swept.2 = kept.2 /\
  (Http.skips opts req = false ->
   swept.1.1 !! Http.client_of req = kept.1.1 !! Http.client_of req).
Proof.
  intros Hle. unfold Http.rateLimit.
  destruct (Http.skips opts req); [repeat split; discriminate | ].
  rewrite cleanup_lookup.
  assert (Hentry :
    match match store !! Http.client_of req with
          | Some e => if (cleaned >? Http.resetTime e)%Z then None else Some e
          | None => None
          end with
    | Some e => if (now >? Http.resetTime e)%Z
                then {| Http.count := 0; Http.resetTime := (now + Http.window opts)%Z |}
                else e
    | None => {| Http.count := 0; Http.resetTime := (now + Http.window opts)%Z |}
    end
    = match store !! Http.client_of req with
      | Some e => if (now >? Http.resetTime e)%Z
                  then {| Http.count := 0; Http.resetTime := (now + Http.window opts)%Z |}
                  else e
      | None => {| Http.count := 0; Http.resetTime := (now + Http.window opts)%Z |}
      end).
  { destruct (store !! Http.client_of req) as [e | ]; [ | reflexivity].
    destruct (Z.gtb_spec cleaned (Http.resetTime e)); [ | reflexivity].
    destruct (Z.gtb_spec now (Http.resetTime e)); [reflexivity | lia]. }
  rewrite Hentry. cbv zeta.
  destruct (_ >? Http.limit opts)%Z; simpl; repeat split; intros;
    rewrite !lookup_insert_eq; reflexivity.
Qed.

Lemma rate_limit_cleanup_transparent_witness :
  let store : gmap string Http.RateLimitEntry :=
    {[ "10.0.0.7" := {| Http.count := 9; Http.resetTime := 61000 |} ]} in
  let req := Http.sample_request "/mcp" "10.0.0.7" in
  let kept := Http.rateLimit Http.sample_options 70000 req Http.new_response store in
  let swept := Http.rateLimit Http.sample_options 70000 req Http.new_response
                              (Http.cleanup 65000 store) in
  swept.1.2 = kept.1.2 /\ swept.2 = kept.2 /\
  (Http.skips Http.sample_options req = false ->
   swept.1.1 !! Http.client_of req = kept.1.1 !! Http.client_of req).
Proof.
  apply (rate_limit_cleanup_transparent Http.sample_options 65000%Z 70000%Z
           (Http.sample_request "/mcp" "10.0.0.7") Http.new_response
           {[ "10.0.0.7" := {| Http.count := 9; Http.resetTime := 61000 |} ]}).
  lia.
Defined.

(** X19: skip paths match by prefix, not by path segment: with the default
    skip paths, every request whose path starts with ["/health"] (["/health"]
    itself, ["/health/ready"], but also ["/healthz"] or ["/health-admin"]) is
    passed on without being counted and without rate limit headers. *)
Theorem rate_limit_skips_by_prefix
    (options : Http.RateLimitOptions) (now : Z) (req : Http.Request) (res : Http.Response)
    (store : gmap string Http.RateLimitEntry) (rest : string) :
  Http.skipPaths options = None ->
  Http.path req = "/health" ++ rest ->
  Http.createRateLimitMiddleware options now req res store = (store, res, true).
Proof.
  intros Hskip Hpath.
  unfold Http.createRateLimitMiddleware, Http.rateLimit, Http.skips, Http.merge_options.
  rewrite Hskip, Hpath. simpl.
  replace (String.prefix "" ("" ++ rest)) with true by (destruct rest; reflexivity).
  rewrite orb_true_r. reflexivity.
Qed.

Lemma rate_limit_skips_by_prefix_witness :
  Http.createRateLimitMiddleware
    {| Http.windowMs := None; Http.maxRequests := Some 0%Z; Http.skipPaths := None |}
    1000%Z (Http.sample_request "/healthz" "10.0.0.7") Http.new_response ∅
  = (∅, Http.new_response, true).
Proof.
  exact (rate_limit_skips_by_prefix
           {| Http.windowMs := None; Http.maxRequests := Some 0%Z; Http.skipPaths := None |}
           1000%Z (Http.sample_request "/healthz" "10.0.0.7") Http.new_response ∅ "z"
           eq_refl eq_refl).
Defined.

(** ** Request ids and error responses *)

Lemma or_string_nonempty (a : option string) (b : string) :
  b <> "" -> Http.or_string a b <> "".
Proof.
  intros Hb. unfold Http.or_string. destruct a as [s | ]; [ | exact Hb].
  destruct (String.eqb_spec s ""); assumption.
Qed.

(** X20: behind the request id middleware, every error response and every
    404 response names the request in its body by the id of its
    [X-Request-ID] header, which is the incoming [x-request-id] header when
    there is a non-empty one and the generated id otherwise, as long as
    generated ids are not empty. *)
Theorem error_responses_carry_the_request_id
    (fresh : string) (NODE_ENV : option string) (now : string) (err : Http.JsError)
    (req : Http.Request) (res : Http.Response) :
  fresh <> "" ->
  let identified := Http.requestIdMiddleware fresh req res in
  let failed := (Http.errorHandlerMiddleware NODE_ENV now err identified.1.1 identified.1.2).1 in
  let missing := Http.notFoundHandler now identified.1.1 identified.1.2 in
  exists id,
    id <> "" /\
    (forall h, Http.headers req !! "x-request-id" = Some h -> h <> "" -> id = h) /\
    (Http.headers req !! "x-request-id" = None \/
     Http.headers req !! "x-request-id" = Some "" -> id = fresh) /\
    Http.sent_headers failed !! "X-Request-ID" = Some (Http.HStr id) /\
    Http.sent_headers missing !! "X-Request-ID" = Some (Http.HStr id) /\
    (exists e c r, Http.body failed = Some (Http.ErrorResponse e c r id now)) /\
    (exists m, Http.body missing = Some (Http.NotFound "Not Found" m "NOT_FOUND" false id now)).
Proof.
  intros Hfresh. cbv zeta.
  pose proof (or_string_nonempty (Http.headers req !! "x-request-id") fresh Hfresh) as Hid.
  set (id := Http.or_string (Http.headers req !! "x-request-id") fresh) in *.
  exists id. split; [exact Hid | ].
  split.
  { intros h Hh Hne. subst id. rewrite Hh. unfold Http.or_string.
    destruct (String.eqb_spec h ""); [contradiction | reflexivity]. }
  split.
  { intros [Hh | Hh]; subst id; rewrite Hh; reflexivity. }
  unfold Http.errorHandlerMiddleware, Http.notFoundHandler, Http.requestIdMiddleware.
  simpl. fold id. destruct (String.eqb_spec id ""); [contradiction | ].
  split; [destruct err; apply lookup_insert_eq | ].
  split; [apply lookup_insert_eq | ].
  split; [destruct err; simpl; eauto | eauto].
Qed.

Lemma error_responses_carry_the_request_id_witness :
  let req := Http.sample_request "/mcp" "10.0.0.7" in
  let identified :=
    Http.requestIdMiddleware "6f1c2a9e-0000-4000-8000-000000000001" req Http.new_response in
  let failed :=
    (Http.errorHandlerMiddleware None "2026-01-01T00:00:00.000Z"
                                 (Http.OtherError "ECONNRESET")
                                 identified.1.1 identified.1.2).1 in
  let missing := Http.notFoundHandler "2026-01-01T00:00:00.000Z"
                                      identified.1.1 identified.1.2 in
  exists id,
    id <> "" /\
    (forall h, Http.headers req !! "x-request-id" = Some h -> h <> "" -> id = h) /\
    (Http.headers req !! "x-request-id" = None \/
     Http.headers req !! "x-request-id" = Some "" ->
     id = "6f1c2a9e-0000-4000-8000-000000000001") /\
    Http.sent_headers failed !! "X-Request-ID" = Some (Http.HStr id) /\
    Http.sent_headers missing !! "X-Request-ID" = Some (Http.HStr id) /\
    (exists e c r,
       Http.body failed = Some (Http.ErrorResponse e c r id "2026-01-01T00:00:00.000Z")) /\
    (exists m,
       Http.body missing
       = Some (Http.NotFound "Not Found" m "NOT_FOUND" false id "2026-01-01T00:00:00.000Z")).
Proof.
  apply (error_responses_carry_the_request_id "6f1c2a9e-0000-4000-8000-000000000001" None
           "2026-01-01T00:00:00.000Z" (Http.OtherError "ECONNRESET")
           (Http.sample_request "/mcp" "10.0.0.7") Http.new_response).
  discriminate.
Defined.

(** X21: an error built by one of the static factories of [AppError] is
    answered with its own message, a non-empty code, one of the statuses 400,
    401, 403, 404, 409, 500 and 503, and [retryable] exactly when the status
    is a server error (500 or more). *)
Theorem error_handler_factory_errors
    (NODE_ENV : option string) (now : string) (err : Http.JsError)
    (req : Http.Request) (res : Http.Response) :
  Http.from_factory err ->
  let answer := (Http.errorHandlerMiddleware NODE_ENV now err req res).1 in
  exists code,
    Http.body answer
      = Some (Http.ErrorResponse (Http.error_message err) (Some code)
                                 (500 <=? Http.statusCode answer)%Z
                                 (Http.or_string (Http.requestId req) "unknown") now) /\
    code <> "" /\
    Http.statusCode answer ∈ [400; 401; 403; 404; 409; 500; 503]%Z.
Proof.
  intros Hf. cbv zeta. destruct Hf; simpl; eexists; (split; [reflexivity | ]).
  all: split; [try discriminate; apply or_string_nonempty; discriminate | ].
  all: apply (bool_decide_unpack _); vm_compute; exact I.
Qed.

Lemma error_handler_factory_errors_witness :
  let err := Http.conflict "build already running" (Some "") in
  let answer :=
    (Http.errorHandlerMiddleware (Some "production") "2026-01-01T00:00:00.000Z" err
                                 (Http.sample_request "/mcp" "10.0.0.7")
                                 Http.new_response).1 in
  exists code,
    Http.body answer
      = Some (Http.ErrorResponse (Http.error_message err) (Some code)
                (500 <=? Http.statusCode answer)%Z
                (Http.or_string (Http.requestId (Http.sample_request "/mcp" "10.0.0.7"))
                                "unknown")
                "2026-01-01T00:00:00.000Z") /\
    code <> "" /\
    Http.statusCode answer ∈ [400; 401; 403; 404; 409; 500; 503]%Z.
Proof.
  exact (error_handler_factory_errors (Some "production") "2026-01-01T00:00:00.000Z"
           (Http.conflict "build already running" (Some ""))
           (Http.sample_request "/mcp" "10.0.0.7") Http.new_response
           (Http.made_conflict "build already running" (Some ""))).
Defined.
